(** * Social Saver Bot: the content extractor

    A shallow embedding of [content_extractor.py] and of the two helpers
    of [config.py] that it calls ([detect_platform], [is_valid_url]),
    followed by the properties of the extraction subsystem.

    Python strings are sequences of Unicode code points, dictionaries
    returned to the caller are ordered lists of keys with dynamically
    typed values, and every function that can raise returns an
    [outcome]. *)

From Stdlib Require Import Ascii String ZArith NArith Bool List Lia.
Import ListNotations.

Set Warnings "-register-all".

Local Open Scope N_scope.

(** ** Python strings *)

(** A [str] is a list of code points. *)
Definition pystr := list N.

(** The code points of an ASCII literal of the source. *)
Definition py (s : string) : pystr :=
  List.map N_of_ascii (list_ascii_of_string s).

Fixpoint pystr_eqb (a b : pystr) : bool :=
  match a, b with
  | [], [] => true
  | x :: a', y :: b' => (x =? y) && pystr_eqb a' b'
  | _, _ => false
  end.

(** [s.startswith(p)], returning the rest of [s] behind the prefix. *)
Fixpoint strip_prefix (p s : pystr) : option pystr :=
  match p with
  | [] => Some s
  | x :: p' =>
      match s with
      | y :: s' => if x =? y then strip_prefix p' s' else None
      | [] => None
      end
  end.

Definition starts_with (p s : pystr) : bool :=
  match strip_prefix p s with Some _ => true | None => false end.

(** [p in s] for two strings: [p] occurs at some position of [s]. *)
Fixpoint contains (p s : pystr) : bool :=
  starts_with p s ||
  match s with
  | [] => false
  | _ :: s' => contains p s'
  end.

(** [s.split(sep)[1]]: what follows the first occurrence of [sep], when
    there is one ([None] stands for the IndexError of the subscript). The
    caller cuts the segment at the next separator itself when it needs to. *)
Fixpoint after_first (sep s : pystr) : option pystr :=
  match strip_prefix sep s with
  | Some rest => Some rest
  | None =>
      match s with
      | [] => None
      | _ :: s' => after_first sep s'
      end
  end.

(** [s.split(c)[0]] for a one-character separator: the text before the
    first [c], or all of [s]. *)
Fixpoint before_char (c : N) (s : pystr) : pystr :=
  match s with
  | [] => []
  | x :: s' => if x =? c then [] else x :: before_char c s'
  end.

(** The longest prefix of characters different from [stop], and the rest. *)
Fixpoint span_not (stop : N) (s : pystr) : pystr * pystr :=
  match s with
  | [] => ([], [])
  | x :: s' =>
      if x =? stop then ([], s)
      else let '(g, r) := span_not stop s' in (x :: g, r)
  end.

(** ** Character classes *)

Definition in_range (lo hi c : N) : bool := (lo <=? c) && (c <=? hi).

(** [str.isspace]: the separators of [str.split()] and [str.strip()]. *)
Definition is_space (c : N) : bool :=
  in_range 9 13 c || in_range 28 32 c || (c =? 133) || (c =? 160)
  || (c =? 5760) || in_range 8192 8202 c || (c =? 8232) || (c =? 8233)
  || (c =? 8239) || (c =? 8287) || (c =? 12288).

Definition ascii_alnum (c : N) : bool :=
  in_range 48 57 c || in_range 65 90 c || in_range 97 122 c.

(** The six ranges of [emoji_pattern]. *)
Definition is_emoji (c : N) : bool :=
  in_range 0x1F600 0x1F64F c || in_range 0x1F300 0x1F5FF c
  || in_range 0x1F680 0x1F6FF c || in_range 0x1F1E0 0x1F1FF c
  || in_range 0x2702 0x27B0 c || in_range 0x24C2 0x1F251 c.

Definition dot : N := 46.
Definition space : N := 32.
Definition hash : N := 35.
Definition at_sign : N := 64.

Definition is_dot (c : N) : bool := c =? dot.

(** ** Dynamically typed values *)

(** The values [json.loads] and [response.json()] produce, which are also
    the values stored in a result dictionary. A number is kept as an
    integer: the code inspects numbers only for their truth value. *)
Inductive pyval :=
| PNone
| PBool (b : bool)
| PNum (z : Z)
| PStr (s : pystr)
| PList (l : list pyval)
| PDict (kvs : list (pystr * pyval)).

(** Truth value of a Python object. *)
Definition truthy (v : pyval) : bool :=
  match v with
  | PNone => false
  | PBool b => b
  | PNum z => negb (z =? 0)%Z
  | PStr s => match s with [] => false | _ => true end
  | PList l => match l with [] => false | _ => true end
  | PDict kvs => match kvs with [] => false | _ => true end
  end.

Inductive exn :=
| KeyError | IndexError | TypeError | AttributeError | UnboundLocalError.

Inductive outcome (A : Type) :=
| Ret (a : A)
| Raise (e : exn).
Arguments Ret {A} a.
Arguments Raise {A} e.

(** ** Library functions the module imports

    The Unicode tables and the standard-library functions the source
    calls are not part of the repository: the embedding takes them as a
    record, and every theorem holds whatever they compute. *)
Record PyLib := {
  (** [str.isalnum] on a code point above 127, which decides [\w] there *)
  unicode_alnum : N -> bool;
  (** [str.lower] *)
  str_lower : pystr -> pystr;
  (** [urllib.parse.urlparse]: scheme and netloc, [None] when it raises *)
  urlparse : pystr -> option (pystr * pystr);
  (** [json.loads], [None] when it raises *)
  json_loads : pystr -> option pyval;
  (** [urllib.parse.quote] *)
  quote : pystr -> pystr;
  (** [html.unescape] *)
  html_unescape : pystr -> pystr;
  (** [re.sub] with the attribution pattern of [_extract_twitter],
      replacement [''] *)
  sub_attribution : pystr -> pystr;
  (** [str(v)] as an f-string formats a value that is not a string *)
  py_repr : pyval -> pystr
}.

Section Normalizer.

Context (L : PyLib).

(** [\w] of a [str] pattern. *)
Definition is_word (c : N) : bool :=
  (c =? 95) || (if c <? 128 then ascii_alnum c else unicode_alnum L c).

Definition starts_with_word (s : pystr) : bool :=
  match s with
  | c :: _ => is_word c
  | [] => false
  end.

(** [re.sub(m + r'\w+', '', s)] for a marker character [m] that is not a
    word character: scanning from the left, a marker followed by a word
    character starts a match, which extends over all the word characters
    that follow. [inside] tells that the scan is within a match. *)
Fixpoint sub_token (m : N) (inside : bool) (s : pystr) : pystr :=
  match s with
  | [] => []
  | c :: s' =>
      if inside && is_word c then sub_token m true s'
      else if (c =? m) && starts_with_word s' then sub_token m true s'
      else c :: sub_token m false s'
  end.

(** [emoji_pattern.sub('', s)]: a character class under [+], so every
    character of the class goes. *)
Definition strip_emoji (s : pystr) : pystr :=
  List.filter (fun c => negb (is_emoji c)) s.

Definition starts_with_dot (s : pystr) : bool :=
  match s with
  | c :: _ => is_dot c
  | [] => false
  end.

(** [re.sub(r'\.{2,}', '', s)]: a period goes when it has a period next to
    it. [prev] tells that the character before was a period. *)
Fixpoint sub_dots (prev : bool) (s : pystr) : pystr :=
  match s with
  | [] => []
  | c :: s' =>
      if is_dot c then
        if prev || starts_with_dot s' then sub_dots true s'
        else c :: sub_dots true s'
      else c :: sub_dots false s'
  end.

(** [s.split()]: the maximal runs of characters that are not whitespace. *)
Fixpoint split_ws (s : pystr) : list pystr :=
  match s with
  | [] => []
  | c :: s' =>
      if is_space c then split_ws s'
      else
        match s' with
        | [] => [[c]]
        | d :: _ =>
            if is_space d then [c] :: split_ws s'
            else
              match split_ws s' with
              | w :: ws => (c :: w) :: ws
              | [] => [[c]]
              end
        end
  end.

(** [' '.join(ws)] *)
Fixpoint join_space (ws : list pystr) : pystr :=
  match ws with
  | [] => []
  | [w] => w
  | w :: ws' => w ++ space :: join_space ws'
  end.

Fixpoint drop_space (s : pystr) : pystr :=
  match s with
  | [] => []
  | c :: s' => if is_space c then drop_space s' else s
  end.

(** [s.strip()] *)
Definition py_strip (s : pystr) : pystr :=
  rev (drop_space (rev (drop_space s))).

(** Lines 78 to 97 of [_clean_instagram_title]: the cleaning pipeline the
    specification calls [strip_social_noise]. *)
Definition strip_social_noise (caption : pystr) : pystr :=
  let text := sub_token hash false caption in
  let text := sub_token at_sign false text in
  let text := strip_emoji text in
  let text := sub_dots false text in
  join_space (split_ws text).

(** [_clean_instagram_title(caption)]. The argument is whatever the caller
    holds: [re.sub] raises TypeError on an object that is not a string. *)
Definition _clean_instagram_title (caption : pyval) : outcome pystr :=
  if negb (truthy caption) then Ret (py "Instagram Post")
  else
    match caption with
    | PStr s =>
        let text := strip_social_noise s in
        let first_sentence := before_char dot text in
        if existsb is_dot text && (length first_sentence <=? 60)%nat
        then Ret (py_strip first_sentence ++ py ".")
        else
          Ret (match text with
               | [] => py "Instagram Post"
               | _ => py_strip (firstn 60 text)
               end)
    | _ => Raise TypeError
    end.

End Normalizer.

(** ** config.py *)

(** [Config.PLATFORM_PATTERNS], in the order of the dictionary literal
    (iteration over a dictionary follows insertion order). *)
Definition PLATFORM_PATTERNS : list (string * list string) :=
  [ ("instagram", ["instagram.com"; "instagr.am"]);
    ("twitter", ["twitter.com"; "x.com"]);
    ("facebook", ["facebook.com"; "fb.com"]);
    ("youtube", ["youtube.com"; "youtu.be"]);
    ("tiktok", ["tiktok.com"]);
    ("linkedin", ["linkedin.com"]);
    ("reddit", ["reddit.com"; "redd.it"]);
    ("pinterest", ["pinterest.com"; "pin.it"]);
    ("blog", []) ]%string.

(** The inner loop of [detect_platform]: some pattern of the list occurs
    in the lower-cased URL. *)
Fixpoint any_pattern_in (patterns : list string) (url_lower : pystr) : bool :=
  match patterns with
  | [] => false
  | pattern :: rest =>
      if contains (py pattern) url_lower then true
      else any_pattern_in rest url_lower
  end.

(** The outer loop, with its early return, and the final [return 'blog']. *)
Fixpoint scan_platforms (table : list (string * list string))
    (url_lower : pystr) : string :=
  match table with
  | [] => "blog"%string
  | (platform, patterns) :: rest =>
      if any_pattern_in patterns url_lower then platform
      else scan_platforms rest url_lower
  end.

Section Config.

Context (L : PyLib).

Definition detect_platform (url : pystr) : string :=
  let url_lower := str_lower L url in
  scan_platforms PLATFORM_PATTERNS url_lower.

(** [all([result.scheme, result.netloc])], and [False] when [urlparse]
    raises. *)
Definition is_valid_url (url : pystr) : bool :=
  match urlparse L url with
  | Some (scheme, netloc) =>
      truthy (PStr scheme) && truthy (PStr netloc)
  | None => false
  end.

End Config.

(** ** Parsed documents *)

(** What [BeautifulSoup(content, 'html.parser')] builds: text nodes and
    tags with their attributes and contents. *)
Inductive Node :=
| Text (s : pystr)
| Tag (name : pystr) (attrs : list (pystr * pystr)) (contents : list Node).

Definition Soup := list Node.

Section Search.
Context {A B : Type} (f : A -> option B).

(** The first element on which [f] answers. *)
Fixpoint first_some (l : list A) : option B :=
  match l with
  | [] => None
  | x :: l' =>
      match f x with
      | Some r => Some r
      | None => first_some l'
      end
  end.
End Search.

(** Lookup in an association list, first binding first. *)
Fixpoint assoc {V : Type} (k : pystr) (kvs : list (pystr * V)) : option V :=
  match kvs with
  | [] => None
  | (k', v) :: rest => if pystr_eqb k k' then Some v else assoc k rest
  end.

Definition tag_name (n : Node) : pystr :=
  match n with
  | Tag nm _ _ => nm
  | Text _ => []
  end.

Definition tag_attrs (n : Node) : list (pystr * pystr) :=
  match n with
  | Tag _ at_ _ => at_
  | Text _ => []
  end.

Definition tag_contents (n : Node) : list Node :=
  match n with
  | Tag _ _ c => c
  | Text _ => []
  end.

(** [tag.get(key)] *)
Definition attr (key : string) (n : Node) : option pystr :=
  assoc (py key) (tag_attrs n).

(** [tag[key]], a KeyError when the tag has no such attribute. *)
Definition tag_item (n : Node) (key : string) : outcome pystr :=
  match attr key n with
  | Some v => Ret v
  | None => Raise KeyError
  end.

(** [tag.get(key, '')] *)
Definition tag_get (n : Node) (key : string) : pystr :=
  match attr key n with
  | Some v => v
  | None => []
  end.

(** [tag.string]: the single text node of a tag, looked for through
    single children. *)
Fixpoint node_string (n : Node) : option pystr :=
  match n with
  | Text s => Some s
  | Tag _ _ [c] => node_string c
  | Tag _ _ _ => None
  end.

(** The first tag satisfying [p] at or below [n], in document order. *)
Fixpoint find_at (p : Node -> bool) (n : Node) : option Node :=
  match n with
  | Text _ => None
  | Tag _ _ c => if p n then Some n else first_some (find_at p) c
  end.

(** [soup.find(...)] with the filter [p]. *)
Definition find (p : Node -> bool) (soup : list Node) : option Node :=
  first_some (find_at p) soup.

(** All the tags satisfying [p] at or below [n], in document order. *)
Fixpoint find_all_at (p : Node -> bool) (n : Node) : list Node :=
  match n with
  | Text _ => []
  | Tag _ _ c => (if p n then [n] else []) ++ flat_map (find_all_at p) c
  end.

(** [tag.find_all(...)]: the matching descendants of a tag. *)
Definition find_all (p : Node -> bool) (n : Node) : list Node :=
  flat_map (find_all_at p) (tag_contents n).

(** The text nodes at or below [n], in document order. *)
Fixpoint all_strings (n : Node) : list pystr :=
  match n with
  | Text s => [s]
  | Tag _ _ c => flat_map all_strings c
  end.

Definition is_tag (name : string) (n : Node) : bool :=
  match n with
  | Tag nm _ _ => pystr_eqb nm (py name)
  | Text _ => false
  end.

Definition has_attr (key value : string) (n : Node) : bool :=
  match attr key n with
  | Some v => pystr_eqb v (py value)
  | None => false
  end.

(** [soup.find('meta', property=p)] *)
Definition find_meta_property (p : string) (soup : Soup) : option Node :=
  find (fun n => is_tag "meta" n && has_attr "property" p n) soup.

(** [soup.find('meta', attrs={'name': nm})] *)
Definition find_meta_name (nm : string) (soup : Soup) : option Node :=
  find (fun n => is_tag "meta" n && has_attr "name" nm n) soup.

(** [re.search] of [pre], one character other than a newline, [post]:
    the patterns [window._sharedData] and [window.__INITIAL_STATE__]. *)
Fixpoint search_wild (pre post s : pystr) : bool :=
  match strip_prefix pre s with
  | Some (c :: r) => negb (c =? 10) && starts_with post r
  | _ => false
  end
  || match s with
     | [] => false
     | _ :: s' => search_wild pre post s'
     end.

(** [soup.find('script', text=re.compile(pre + '.' + post))]: the first
    script tag whose string the pattern is found in. *)
Definition find_script (pre post : string) (soup : Soup) : option Node :=
  find (fun n => is_tag "script" n &&
                 match node_string n with
                 | Some s => search_wild (py pre) (py post) s
                 | None => false
                 end) soup.

(** [re.search(prefix + '([^c]+)' + close, s)] and its group 1, for a
    literal [prefix], a stop character [c], and [close] either empty or the
    stop character itself: the leftmost position where the prefix is
    followed by at least one character other than [c] (and then by [c],
    when [closed]). *)
Fixpoint search_group (prefix : pystr) (stop : N) (closed : bool)
    (s : pystr) : option pystr :=
  let here :=
    match strip_prefix prefix s with
    | Some rest =>
        let '(g, r) := span_not stop rest in
        match g with
        | [] => None
        | _ => if negb closed || starts_with [stop] r then Some g else None
        end
    | None => None
    end in
  match here with
  | Some g => Some g
  | None =>
      match s with
      | [] => None
      | _ :: s' => search_group prefix stop closed s'
      end
  end.

(** The text before the first occurrence of [sep], or all of [s]. *)
Fixpoint before_str (sep s : pystr) : pystr :=
  if starts_with sep s then []
  else
    match s with
    | [] => []
    | c :: s' => c :: before_str sep s'
    end.

(** [s.split(sep)[1]] for a separator that is not empty. *)
Definition split_second (sep s : pystr) : option pystr :=
  match after_first sep s with
  | Some rest => Some (before_str sep rest)
  | None => None
  end.

(** ** Operations on dynamically typed values *)

Definition obind {A B : Type} (m : outcome A) (k : A -> outcome B)
    : outcome B :=
  match m with
  | Ret a => k a
  | Raise e => Raise e
  end.

Notation "x <~ m ;; k" := (obind m (fun x => k))
  (at level 100, m at next level, right associativity).

(** ['k' in v] *)
Definition py_in (k : pystr) (v : pyval) : outcome bool :=
  match v with
  | PDict kvs => Ret (match assoc k kvs with Some _ => true | None => false end)
  | PList l =>
      Ret (existsb (fun x => match x with
                             | PStr s => pystr_eqb s k
                             | _ => false
                             end) l)
  | PStr s => Ret (contains k s)
  | _ => Raise TypeError
  end.

(** [v['k']] *)
Definition py_item (v : pyval) (k : pystr) : outcome pyval :=
  match v with
  | PDict kvs =>
      match assoc k kvs with
      | Some x => Ret x
      | None => Raise KeyError
      end
  | _ => Raise TypeError
  end.

(** [v[0]] *)
Definition py_item0 (v : pyval) : outcome pyval :=
  match v with
  | PList (x :: _) => Ret x
  | PList [] => Raise IndexError
  | PStr (c :: _) => Ret (PStr [c])
  | PStr [] => Raise IndexError
  | PDict _ => Raise KeyError
  | _ => Raise TypeError
  end.

(** [v.get('k', default)], a method only dictionaries have. *)
Definition py_get (v : pyval) (k : pystr) (default : pyval)
    : outcome pyval :=
  match v with
  | PDict kvs =>
      Ret (match assoc k kvs with Some x => x | None => default end)
  | _ => Raise AttributeError
  end.

(** ** Results, the network and the extractor's effects *)

(** A result dictionary: its items in insertion order, one per key. *)
Definition dict := list (string * pyval).

(** The value stored under [k], if any. *)
Fixpoint lookup (k : string) (d : dict) : option pyval :=
  match d with
  | [] => None
  | (k', v) :: rest => if String.eqb k' k then Some v else lookup k rest
  end.

Notation "d !! k" := (lookup k d) (at level 20).

(** [d.get(k)] *)
Definition dict_get (d : dict) (k : string) : pyval :=
  match d !! k with
  | Some v => v
  | None => PNone
  end.

(** [d[k] = v]: the value of an existing key is replaced where it stands,
    a new key goes to the end. *)
Fixpoint dict_set (d : dict) (k : string) (v : pyval) : dict :=
  match d with
  | [] => [(k, v)]
  | (k', v') :: rest =>
      if String.eqb k' k then (k', v) :: rest
      else (k', v') :: dict_set rest k v
  end.

(** A dictionary literal [{k1: v1, ...}]. *)
Definition of_list (kvs : list (string * pyval)) : dict :=
  fold_left (fun d kv => dict_set d (fst kv) (snd kv)) kvs [].

(** One [key: value] entry of a dictionary literal. *)
Definition item (k : string) (v : pyval) : string * pyval := (k, v).

(** What [self.session.get] does with a request: it raises a
    [RequestException], or it answers with a status code and a body, seen
    through its two readings: the tree [BeautifulSoup] builds of it and
    the value [response.json()] returns ([None] when that raises). *)
Inductive HttpReply :=
| RequestFailed
| Response (status_code : Z) (document : Soup) (json_body : option pyval).

(** The world the extractor runs in: the remote side, which answers the
    n-th request of the run for a URL, the requests sent so far, and the
    seconds slept. *)
Record World := {
  net : nat -> pystr -> HttpReply;
  requests : list pystr;
  slept : nat
}.

Definition M (A : Type) : Type := World -> outcome A * World.

Definition ret {A : Type} (a : A) : M A := fun w => (Ret a, w).

Definition bind {A B : Type} (m : M A) (k : A -> M B) : M B :=
  fun w =>
    match m w with
    | (Ret a, w') => k a w'
    | (Raise e, w') => (Raise e, w')
    end.

Notation "x <- m ;; k" := (bind m (fun x => k))
  (at level 100, m at next level, right associativity).

Definition lift {A : Type} (o : outcome A) : M A := fun w => (o, w).

(** [self.session.get(url, timeout=...)] *)
Definition session_get (url : pystr) : M HttpReply :=
  fun w =>
    (Ret (net w (length (requests w)) url),
     {| net := net w; requests := requests w ++ [url]; slept := slept w |}).

(** [time.sleep(1)] *)
Definition sleep1 (w : World) : World :=
  {| net := net w; requests := requests w; slept := S (slept w) |}.

(** [response.raise_for_status()] raises for the codes 400 to 599. *)
Definition is_error_status (code : Z) : bool :=
  ((400 <=? code) && (code <? 600))%Z.

(** [_make_request]: the document, or [None] on a [RequestException]. *)
Definition _make_request (url : pystr) : M (option Soup) :=
  response <- session_get url ;;
  match response with
  | RequestFailed => ret None
  | Response code document _ =>
      if is_error_status code then ret None else ret (Some document)
  end.

(** [tag['content'] if tag else default] *)
Definition content_or (tag : option Node) (default : pystr)
    : outcome pystr :=
  match tag with
  | Some t => tag_item t "content"
  | None => Ret default
  end.

Definition failure (message : string) : dict :=
  of_list [item "success" (PBool false); item "error" (PStr (py message))].

(** ** content_extractor.py *)

Definition dquote : N := 34.
Definition em_dash : N := 8212.

(** [re.sub(r'<[^>]+>', '', s)]: a [<] followed by at least one character
    other than [>] and then by [>] goes with all of them. [inside] tells
    that the scan is within such a match. *)
Definition tag_ahead (s : pystr) : bool :=
  let '(g, r) := span_not 62 s in
  match g with
  | [] => false
  | _ => starts_with [62] r
  end.

Fixpoint strip_tags (inside : bool) (s : pystr) : pystr :=
  match s with
  | [] => []
  | c :: s' =>
      if inside then
        if c =? 62 then strip_tags false s' else strip_tags true s'
      else if (c =? 60) && tag_ahead s' then strip_tags true s'
      else c :: strip_tags false s'
  end.

(** [s.replace(old, new)] for [old] not empty; [skip] counts the
    characters of a replaced occurrence still to pass over. *)
Fixpoint replace_from (old new : pystr) (skip : nat) (s : pystr) : pystr :=
  match s with
  | [] => []
  | c :: s' =>
      match skip with
      | S k => replace_from old new k s'
      | O =>
          if starts_with old s
          then new ++ replace_from old new (length old - 1) s'
          else c :: replace_from old new 0 s'
      end
  end.

(** [tag.get_text(strip=True)]: the stripped text nodes that are not
    empty, one after the other. *)
Definition get_text_strip (n : Node) : pystr :=
  concat (List.filter (fun s => truthy (PStr s))
            (List.map py_strip (all_strings n))).

Section Extractor.

Context (L : PyLib).

(** [f'{v}']: a string as it is, anything else through [str]. *)
Definition format (v : pyval) : pystr :=
  match v with
  | PStr s => s
  | _ => py_repr L v
  end.

(** The argument of [json.loads] in [_extract_instagram] and its value;
    [None] when any step of the expression raises. *)
Definition shared_data (script : Node) : option pyval :=
  match node_string script with
  | Some s =>
      match split_second (py "window._sharedData = ") s with
      | Some segment => json_loads L (before_char 59 segment)
      | None => None
      end
  | None => None
  end.

(** The body of the [try] of [_extract_instagram] behind [json.loads].
    An exception anywhere in it is swallowed by [except Exception: pass],
    so what remains is the assignments made before it. *)
Definition apply_shared_data (data full_caption : pyval) (result : dict)
    : pyval * dict :=
  let guard :=
    c <~ py_in (py "entry_data") data ;;
    if (c : bool) then
      e <~ py_item data (py "entry_data") ;; py_in (py "PostPage") e
    else Ret false in
  match guard with
  | Ret true =>
      let post :=
        a <~ py_item data (py "entry_data") ;;
        b <~ py_item a (py "PostPage") ;;
        c <~ py_item0 b ;;
        d <~ py_item c (py "graphql") ;;
        py_item d (py "shortcode_media") in
      match post with
      | Ret post =>
          let text :=
            a <~ py_get post (py "edge_media_to_caption") (PDict []) ;;
            b <~ py_get a (py "edges") (PList [PDict []]) ;;
            c <~ py_item0 b ;;
            d <~ py_get c (py "node") (PDict []) ;;
            py_get d (py "text") full_caption in
          match text with
          | Ret full_caption' =>
              let result' := dict_set result "caption" full_caption' in
              let author :=
                a <~ py_get post (py "owner") (PDict []) ;;
                py_get a (py "username") (PStr []) in
              match author with
              | Ret a => (full_caption', dict_set result' "author" a)
              | Raise _ => (full_caption', result')
              end
          | Raise _ => (full_caption, result)
          end
      | Raise _ => (full_caption, result)
      end
  | _ => (full_caption, result)
  end.

Definition _extract_instagram (url : pystr) : M dict :=
  soup <- _make_request url ;;
  match soup with
  | None => ret (failure "Failed to fetch Instagram post")
  | Some soup =>
      let caption := find_meta_property "og:description" soup in
      let image := find_meta_property "og:image" soup in
      full_caption <- lift (content_or caption []) ;;
      image_url <- lift (content_or image []) ;;
      let result := of_list
        [ item "success" (PBool true);
          item "platform" (PStr (py "instagram"));
          item "url" (PStr url);
          item "title" (PStr []);
          item "caption" (PStr full_caption);
          item "image_url" (PStr image_url);
          item "author" (PStr []);
          item "media_type" (PStr (py "post")) ] in
      let '(full_caption, result) :=
        match find_script "window" "_sharedData" soup with
        | Some script =>
            match shared_data script with
            | Some data => apply_shared_data data (PStr full_caption) result
            | None => (PStr full_caption, result)
            end
        | None => (PStr full_caption, result)
        end in
      title <- lift (_clean_instagram_title L full_caption) ;;
      ret (dict_set result "title" (PStr title))
  end.

(** The [try] of [_extract_twitter] once the oEmbed answer is parsed. *)
Definition oembed_result (url : pystr) (oembed_data : pyval)
    : outcome dict :=
  html_content <~ py_get oembed_data (py "html") (PStr []) ;;
  author <~ py_get oembed_data (py "author_name") (PStr []) ;;
  match html_content with
  | PStr h =>
      let text := strip_tags false h in
      let text := py_strip text in
      let text := html_unescape L text in
      let text := py_strip (sub_attribution L text) in
      Ret (of_list
        [ item "success" (PBool true);
          item "platform" (PStr (py "twitter"));
          item "url" (PStr url);
          item "title" (PStr (if truthy author
                          then py "Tweet by " ++ format author
                          else py "Twitter Post"));
          item "caption" (PStr text);
          item "image_url" (PStr []);
          item "author" author;
          item "media_type" (PStr (py "tweet")) ])
  | _ => Raise TypeError
  end.

(** The direct page fetch of [_extract_twitter], on a fetched document:
    [None] when it leaves the caption empty and the fallback follows. *)
Definition twitter_page (url : pystr) (soup : Soup)
    : outcome (option dict) :=
  let title := find_meta_property "og:title" soup in
  let description :=
    match find_meta_property "og:description" soup with
    | Some d => Some d
    | None => find_meta_name "description" soup
    end in
  let image := find_meta_property "og:image" soup in
  let caption :=
    match description with
    | Some d => html_unescape L (tag_get d "content")
    | None => []
    end in
  let '(caption, author) :=
    match find_script "window" "__INITIAL_STATE__" soup with
    | Some script =>
        match node_string script with
        | Some (c :: s') =>
            let s := c :: s' in
            ( match search_group (dquote :: py "text" ++ [dquote; 58; dquote])
                      dquote true s with
              | Some g => replace_from (py "\n") [10] 0 g
              | None => caption
              end,
              match search_group
                      (dquote :: py "screen_name" ++ [dquote; 58; dquote])
                      dquote true s with
              | Some g => g
              | None => []
              end )
        | _ => (caption, [])
        end
    | None => (caption, [])
    end in
  match caption with
  | [] => Ret None
  | _ =>
      let caption := py_strip (sub_attribution L caption) in
      t <~ match title with
           | Some t => tag_item t "content"
           | None => Ret (match author with
                          | [] => py "Twitter Post"
                          | _ => py "Tweet by " ++ author
                          end)
           end ;;
      i <~ content_or image [] ;;
      Ret (Some (of_list
        [ item "success" (PBool true);
          item "platform" (PStr (py "twitter"));
          item "url" (PStr url);
          item "title" (PStr t);
          item "caption" (PStr caption);
          item "image_url" (PStr i);
          item "author" (PStr author);
          item "media_type" (PStr (py "tweet")) ]))
  end.

(** The handle [re.search(r'twitter\.com/([^/]+)', url)] finds, or ['']. *)
Definition url_author (url : pystr) : pystr :=
  match search_group (py "twitter.com/") 47 false url with
  | Some g => g
  | None => []
  end.

(** The final fallback of [_extract_twitter]. *)
Definition twitter_fallback (url : pystr) : dict :=
  let author := url_author url in
  of_list
    [ item "success" (PBool true);
      item "platform" (PStr (py "twitter"));
      item "url" (PStr url);
      item "title" (PStr (match author with
                      | [] => py "Twitter Post"
                      | _ => py "Tweet by " ++ author
                      end));
      item "caption" (PStr (match author with
                        | [] => py "Twitter Post " ++ em_dash
                                  :: py " click to view"
                        | _ => py "Tweet by " ++ author ++ py " " ++ em_dash
                                 :: py " click to view"
                        end));
      item "image_url" (PStr []);
      item "author" (PStr author);
      item "media_type" (PStr (py "tweet")) ].

Definition _extract_twitter (url : pystr) : M dict :=
  let oembed_url := py "https://publish.twitter.com/oembed?url=" ++ quote L url in
  oembed_response <- session_get oembed_url ;;
  let from_oembed :=
    match oembed_response with
    | Response code _ (Some oembed_data) =>
        if (code =? 200)%Z then
          match oembed_result url oembed_data with
          | Ret d => Some d
          | Raise _ => None
          end
        else None
    | _ => None
    end in
  match from_oembed with
  | Some d => ret d
  | None =>
      soup <- _make_request url ;;
      page <- lift (match soup with
                    | Some soup => twitter_page url soup
                    | None => Ret None
                    end) ;;
      match page with
      | Some d => ret d
      | None => ret (twitter_fallback url)
      end
  end.

(** The five strategies that read the three [og:] meta tags and nothing
    else differ in their literals only: [_extract_facebook],
    [_extract_tiktok], [_extract_linkedin], [_extract_reddit] and
    [_extract_pinterest] are this one body. *)
Definition og_strategy (platform failed default_title media_type : string)
    (url : pystr) : M dict :=
  soup <- _make_request url ;;
  match soup with
  | None => ret (failure failed)
  | Some soup =>
      let title := find_meta_property "og:title" soup in
      let description := find_meta_property "og:description" soup in
      let image := find_meta_property "og:image" soup in
      t <- lift (content_or title (py default_title)) ;;
      c <- lift (content_or description []) ;;
      i <- lift (content_or image []) ;;
      ret (of_list
        [ item "success" (PBool true);
          item "platform" (PStr (py platform));
          item "url" (PStr url);
          item "title" (PStr t);
          item "caption" (PStr c);
          item "image_url" (PStr i);
          item "author" (PStr []);
          item "media_type" (PStr (py media_type)) ])
  end.

Definition _extract_facebook : pystr -> M dict :=
  og_strategy "facebook" "Failed to fetch Facebook post" "Facebook Post" "post".

Definition _extract_tiktok : pystr -> M dict :=
  og_strategy "tiktok" "Failed to fetch TikTok video" "TikTok Video" "video".

Definition _extract_linkedin : pystr -> M dict :=
  og_strategy "linkedin" "Failed to fetch LinkedIn post" "LinkedIn Post" "post".

Definition _extract_reddit : pystr -> M dict :=
  og_strategy "reddit" "Failed to fetch Reddit post" "Reddit Post" "post".

Definition _extract_pinterest : pystr -> M dict :=
  og_strategy "pinterest" "Failed to fetch Pinterest pin" "Pinterest Pin" "image".

(** The video id of [_extract_youtube]: the [v=] parameter when the URL
    contains [youtube.com], else the path segment behind [youtu.be/] when
    it contains [youtu.be], else ['']. *)
Definition youtube_video_id (url : pystr) : pystr :=
  if contains (py "youtube.com") url then
    match search_group (py "v=") 38 false url with
    | Some g => g
    | None => []
    end
  else if contains (py "youtu.be") url then
    match search_group (py "youtu.be/") 63 false url with
    | Some g => g
    | None => []
    end
  else [].

Definition thumbnail (video_id : pystr) : pystr :=
  py "https://img.youtube.com/vi/" ++ video_id ++ py "/maxresdefault.jpg".

Definition _extract_youtube (url : pystr) : M dict :=
  soup <- _make_request url ;;
  match soup with
  | None => ret (failure "Failed to fetch YouTube video")
  | Some soup =>
      let title := find_meta_property "og:title" soup in
      let description := find_meta_property "og:description" soup in
      let image := find_meta_property "og:image" soup in
      let video_id := youtube_video_id url in
      t <- lift (content_or title (py "YouTube Video")) ;;
      c <- lift (content_or description []) ;;
      i <- lift (match video_id with
                 | [] => content_or image []
                 | _ => Ret (thumbnail video_id)
                 end) ;;
      ret (of_list
        [ item "success" (PBool true);
          item "platform" (PStr (py "youtube"));
          item "url" (PStr url);
          item "title" (PStr t);
          item "caption" (PStr c);
          item "image_url" (PStr i);
          item "video_id" (PStr video_id);
          item "media_type" (PStr (py "video")) ])
  end.

Definition _extract_generic (url : pystr) : M dict :=
  soup <- _make_request url ;;
  match soup with
  | None => ret (failure "Failed to fetch webpage")
  | Some soup =>
      (* [None] is Python's None, the string of a title tag without one *)
      title <- lift (match find (is_tag "title") soup with
                     | None =>
                         t <~ content_or (find_meta_property "og:title" soup)
                                (py "Untitled") ;;
                         Ret (Some t)
                     | Some title => Ret (node_string title)
                     end) ;;
      description <- lift (match find_meta_name "description" soup with
                           | None =>
                               content_or
                                 (find_meta_property "og:description" soup) []
                           | Some d => Ret (tag_get d "content")
                           end) ;;
      image_url <- lift (content_or (find_meta_property "og:image" soup) []) ;;
      let author :=
        match find_meta_name "author" soup with
        | Some author_meta => tag_get author_meta "content"
        | None => []
        end in
      let article :=
        match find (is_tag "article") soup with
        | Some a => Some a
        | None => find (is_tag "main") soup
        end in
      let main_content :=
        match article with
        | Some a =>
            let paragraphs := firstn 5 (find_all (is_tag "p") a) in
            join_space (List.map get_text_strip paragraphs)
        | None => []
        end in
      ret (of_list
        [ item "success" (PBool true);
          item "platform" (PStr (py "blog"));
          item "url" (PStr url);
          item "title" (PStr (match title with
                              | Some (c :: t) => py_strip (c :: t)
                              | _ => py "Untitled"
                              end));
          item "caption" (PStr (match description with
                                | [] => firstn 500 main_content
                                | _ => py_strip description
                                end));
          item "image_url" (PStr image_url);
          item "author" (PStr author);
          item "media_type" (PStr (py "article")) ])
  end.

(** The dispatch table of [extract]. *)
Definition extractors : list (string * (pystr -> M dict)) :=
  [ ("instagram", _extract_instagram);
    ("twitter", _extract_twitter);
    ("facebook", _extract_facebook);
    ("youtube", _extract_youtube);
    ("tiktok", _extract_tiktok);
    ("linkedin", _extract_linkedin);
    ("reddit", _extract_reddit);
    ("pinterest", _extract_pinterest) ]%string.

(** [table.get(key, default)] *)
Fixpoint table_get {V : Type} (table : list (string * V)) (key : string)
    (default : V) : V :=
  match table with
  | [] => default
  | (k, v) :: rest => if String.eqb k key then v else table_get rest key default
  end.

Definition extract (url : pystr) : M dict :=
  if negb (is_valid_url L url) then ret (failure "Invalid URL format")
  else
    let platform := detect_platform L url in
    let extractor := table_get extractors platform _extract_generic in
    extractor url.

End Extractor.

(** ** The retry wrapper

    [extract_with_retry] calls [self.extract] and sleeps, nothing else;
    the loop is written over any dispatcher and any state, so that it can
    be run on a stub as well as on [extract]. *)
Section Retry.

Context {S : Type}.
Context (dispatcher : pystr -> S -> outcome dict * S).
Context (sleep : S -> S).

(** The [for] loop with [n] iterations left to run, [attempt] the value
    of the loop variable and [last] the binding of [result], if there is
    one; at the end of the range, [return result]. *)
Fixpoint retry_loop (url : pystr) (max_retries : Z) (n : nat) (attempt : Z)
    (last : option dict) (s : S) : outcome dict * S :=
  match n with
  | O =>
      match last with
      | Some result => (Ret result, s)
      | None => (Raise UnboundLocalError, s)
      end
  | Datatypes.S n' =>
      match dispatcher url s with
      | (Raise e, s') => (Raise e, s')
      | (Ret result, s') =>
          if truthy (dict_get result "success") then (Ret result, s')
          else
            let s'' :=
              if (attempt <? max_retries - 1)%Z then sleep s' else s' in
            retry_loop url max_retries n' (attempt + 1)%Z (Some result) s''
      end
  end.

(** [range(max_retries)] has [max_retries] elements, none when that is
    zero or negative. *)
Definition retry_with (url : pystr) (max_retries : Z) (s : S)
    : outcome dict * S :=
  retry_loop url max_retries (Z.to_nat max_retries) 0%Z None s.

End Retry.

(** [ContentExtractor.extract_with_retry] *)
Definition extract_with_retry (L : PyLib) (url : pystr) (max_retries : Z)
    : M dict :=
  retry_with (extract L) sleep1 url max_retries.

(** The module-level convenience functions. *)
Definition extract_content (L : PyLib) (url : pystr) : M dict :=
  extract L url.

Definition extract_content_with_retry (L : PyLib) (url : pystr)
    (max_retries : Z) : M dict :=
  extract_with_retry L url max_retries.

(** ** The specification's reading of the classifier *)

(** [p] occurs in [s] as a substring. *)
Definition occurs (p s : pystr) : Prop :=
  exists a b, s = a ++ p ++ b.

(** One of the patterns of the list occurs in [u]. *)
Definition matches (patterns : list string) (u : pystr) : Prop :=
  exists pattern, In pattern patterns /\ occurs (py pattern) u.

(** "First matching platform wins; no match gives blog", over the
    lower-cased URL. *)
Definition classify (table : list (string * list string)) (u : pystr)
    : string :=
  match List.find (fun entry => existsb (fun p => contains (py p) u)
                                  (snd entry)) table with
  | Some entry => fst entry
  | None => "blog"%string
  end.

(** The nine platform tags. *)
Definition platform_tags : list string :=
  List.map fst PLATFORM_PATTERNS.

(** ** A library instance and documents for the worked examples *)

Module Sample.

(** Lower-casing of the ASCII letters. *)
Definition lower_char (c : N) : N :=
  if in_range 65 90 c then c + 32 else c.

(** Scheme and netloc of a URL of the shape [scheme://netloc/...]; both
    empty without [://], as [urlparse] answers for such a string. *)
Definition split_url (u : pystr) : option (pystr * pystr) :=
  match after_first (py "://") u with
  | Some rest => Some (before_str (py "://") u, before_char 47 rest)
  | None => Some ([], [])
  end.

(** A JSON text written with single quotes in place of double quotes. *)
Definition json_text (s : string) : pystr :=
  List.map (fun c => if c =? 39 then dquote else c) (py s).

(** A legacy shared-data blob whose caption text is [null]. *)
Definition null_caption_json : pystr :=
  json_text "{'entry_data': {'PostPage': [{'graphql': {'shortcode_media': {'edge_media_to_caption': {'edges': [{'node': {'text': null}}]}}}}]}}".

Definition null_caption_data : pyval :=
  PDict [(py "entry_data", PDict [(py "PostPage", PList [
    PDict [(py "graphql", PDict [(py "shortcode_media", PDict [
      (py "edge_media_to_caption", PDict [(py "edges", PList [
        PDict [(py "node", PDict [(py "text", PNone)])]])])])])]])])].

(** [json.loads] on the one JSON text the examples parse. *)
Definition loads (s : pystr) : option pyval :=
  if pystr_eqb s null_caption_json then Some null_caption_data else None.

Definition lib : PyLib :=
  {| unicode_alnum := fun _ => false;
     str_lower := List.map lower_char;
     urlparse := split_url;
     json_loads := loads;
     quote := fun s => s;
     html_unescape := fun s => s;
     sub_attribution := fun s => s;
     py_repr := fun _ => py "?" |}.

(** [<meta property=p content=c>] *)
Definition meta (p c : string) : Node :=
  Tag (py "meta") [(py "property", py p); (py "content", py c)] [].

(** [<meta property=p>], a tag without a content attribute. *)
Definition bare_meta (p : string) : Node :=
  Tag (py "meta") [(py "property", py p)] [].

(** A remote side that answers every request with the same reply. *)
Definition always (reply : HttpReply) : World :=
  {| net := fun _ _ => reply; requests := []; slept := 0 |}.

(** A page with the given nodes, served with status 200. *)
Definition page (doc : Soup) : World := always (Response 200 doc None).

(** No request succeeds. *)
Definition offline : World := always RequestFailed.

Definition failed : dict := failure "Failed to fetch webpage".

Definition succeeded : dict := of_list [item "success" (PBool true)].

(** A dispatcher stub that always fails; its state counts the calls. *)
Definition always_fails (url : pystr) (calls : nat)
    : outcome dict * nat :=
  (Ret failed, S calls).

(** A dispatcher stub that fails twice and then succeeds. *)
Definition fails_twice (url : pystr) (calls : nat) : outcome dict * nat :=
  (Ret (if (calls <? 2)%nat then failed else succeeded), S calls).

(** An Instagram page carrying the blob [null_caption_json]. *)
Definition null_caption_page : Soup :=
  [ Tag (py "html") []
      [ Tag (py "head") [] [meta "og:description" "A day out"];
        Tag (py "body") []
          [ Tag (py "script") []
              [Text (py "window._sharedData = " ++ null_caption_json
                       ++ py ";")] ] ] ].

End Sample.

(** ** The retry loop observed

    The outcomes of the dispatcher calls a run makes, in order: the
    dispatcher is wrapped so that it appends each outcome to a log kept
    beside its state. *)
Section RetryLog.

Context {S : Type}.
Context (dispatcher : pystr -> S -> outcome dict * S).
Context (sleep : S -> S).

Definition logged (url : pystr) (sl : S * list (outcome dict))
    : outcome dict * (S * list (outcome dict)) :=
  let '(o, s') := dispatcher url (fst sl) in (o, (s', snd sl ++ [o])).

Definition sleep_logged (sl : S * list (outcome dict))
    : S * list (outcome dict) :=
  (sleep (fst sl), snd sl).

(** The result of [retry_with] and the log of the dispatcher's outcomes. *)
Definition retry_outcome (url : pystr) (max_retries : Z) (s : S)
    : outcome dict :=
  fst (retry_with logged sleep_logged url max_retries (s, [])).

Definition retry_calls (url : pystr) (max_retries : Z) (s : S)
    : list (outcome dict) :=
  snd (snd (retry_with logged sleep_logged url max_retries (s, []))).

End RetryLog.

(** A result that reports failure: [result.get('success')] is falsy. *)
Definition is_failure (o : outcome dict) : Prop :=
  exists result, o = Ret result /\ truthy (dict_get result "success") = false.

Definition is_success (o : outcome dict) : Prop :=
  exists result, o = Ret result /\ truthy (dict_get result "success") = true.

(** ** Predicates on cleaned text *)

(** [m] followed by a word character occurs in [s]: a hashtag or mention
    token is left. *)
Fixpoint has_token (L : PyLib) (m : N) (s : pystr) : bool :=
  match s with
  | [] => false
  | c :: s' => ((c =? m) && starts_with_word L s') || has_token L m s'
  end.

(** No two periods stand next to each other. *)
Fixpoint no_double_dot (s : pystr) : bool :=
  match s with
  | [] => true
  | c :: s' => negb (is_dot c && starts_with_dot s') && no_double_dot s'
  end.

Definition starts_with_space (s : pystr) : bool :=
  match s with
  | c :: _ => is_space c
  | [] => false
  end.

(** A word of [str.split()]: not empty, without whitespace. *)
Definition is_token (w : pystr) : Prop :=
  w <> [] /\ Forall (fun c => is_space c = false) w.

(** ** The result record and the end of the retry loop *)

(** What [return result] yields at the end of the range. *)
Definition unbound_or (last : option dict) : outcome dict :=
  match last with
  | Some result => Ret result
  | None => Raise UnboundLocalError
  end.

(** The value under [key] is a string. *)
Definition is_str (d : dict) (key : string) : Prop :=
  exists s, d !! key = Some (PStr s).

(** The invariant of the result record: a failure carries an error text
    that is not empty; a success has its platform, URL and media type
    filled in, and a title and a caption that are strings. *)
Definition result_invariant (d : dict) : Prop :=
  (d !! "success"%string = Some (PBool false)
   /\ exists e, d !! "error"%string = Some (PStr e) /\ e <> [])
  \/ (d !! "success"%string = Some (PBool true)
      /\ (exists p, d !! "platform"%string = Some (PStr p) /\ p <> [])
      /\ is_str d "url"
      /\ (exists m, d !! "media_type"%string = Some (PStr m) /\ m <> [])
      /\ is_str d "title"
      /\ is_str d "caption").

(** The page fetched for [url] carries no shared-data blob that parses. *)
Definition no_shared_data (L : PyLib) (url : pystr) (w : World) : Prop :=
  forall code doc body script,
    net w (length (requests w)) url = Response code doc body ->
    find_script "window" "_sharedData" doc = Some script ->
    shared_data L script = None.

(** ** Effects of a computation on the world *)

(** The address of the oEmbed request of [_extract_twitter]. *)
Definition oembed_url (L : PyLib) (url : pystr) : pystr :=
  py "https://publish.twitter.com/oembed?url=" ++ quote L url.

(** [w'] is [w] after the requests [sent], in order, and nothing else. *)
Definition after_requests (w : World) (sent : list pystr) (w' : World)
    : Prop :=
  net w' = net w /\ slept w' = slept w /\ requests w' = requests w ++ sent.

(** A computation that leaves the world as it finds it. *)
Definition keeps_world {A : Type} (m : M A) : Prop :=
  forall w, snd (m w) = w.

(** A successful result names [platform] and echoes [url]. *)
Definition tagged (platform : string) (url : pystr) (d : dict) : Prop :=
  d !! "success"%string = Some (PBool true) ->
  d !! "platform"%string = Some (PStr (py platform))
  /\ d !! "url"%string = Some (PStr url).

(** The oEmbed request gave nothing to read: it raised, or was answered
    with a status other than 200, or with a body that is not JSON. *)
Definition oembed_unusable (reply : HttpReply) : Prop :=
  match reply with
  | RequestFailed => True
  | Response code _ body => code <> 200%Z \/ body = None
  end.

(** The page request failed: it raised, or was answered with an error
    status. *)
Definition fetch_failed (reply : HttpReply) : Prop :=
  match reply with
  | RequestFailed => True
  | Response code _ _ => is_error_status code = true
  end.

(** The page request was answered with the document [doc]. *)
Definition fetched (w : World) (url : pystr) (doc : Soup) : Prop :=
  exists code body,
    net w (length (requests w)) url = Response code doc body
    /\ is_error_status code = false.

(** The world after one more request. *)
Definition sent (w : World) (url : pystr) : World :=
  {| net := net w; requests := requests w ++ [url]; slept := slept w |}.



(** The text [_extract_generic] gathers from the first five paragraphs. *)
Definition main_content (doc : Soup) : pystr :=
  match match find (is_tag "article") doc with
        | Some a => Some a
        | None => find (is_tag "main") doc
        end with
  | Some a =>
      join_space (List.map get_text_strip (firstn 5 (find_all (is_tag "p") a)))
  | None => []
  end.

(** ** ai_processor.py *)

(** [Config.DEFAULT_CATEGORIES] *)
Definition DEFAULT_CATEGORIES : list string :=
  [ "Artificial Intelligence"; "Machine Learning";
    "Programming & Coding"; "Web Development"; "Mobile Apps";
    "Cybersecurity"; "Cloud Computing"; "Data Science";
    "Blockchain & Crypto"; "Tech Gadgets & Reviews"; "Open Source";
    "Software Engineering"; "Entrepreneurship"; "Startups & Funding";
    "Marketing & Growth"; "SEO & Content Marketing";
    "Social Media Marketing"; "E-Commerce"; "Personal Finance";
    "Stock Market & Investing"; "Real Estate"; "Business Strategy";
    "Remote Work & Productivity"; "Career Development";
    "Fitness & Workouts"; "Yoga & Stretching"; "Nutrition & Diet";
    "Mental Health & Mindfulness"; "Weight Loss"; "Bodybuilding";
    "Running & Cardio"; "Sleep & Recovery"; "Supplements & Biohacking";
    "Medical & Health News"; "Recipes & Cooking"; "Baking & Desserts";
    "Meal Prep"; "Vegan & Plant-Based"; "Street Food & Restaurants";
    "Coffee & Beverages"; "Wine & Cocktails"; "Food Science";
    "Movies & Cinemas"; "TV Shows & Series"; "Anime & Manga";
    "Stand-Up Comedy"; "Music & Artists"; "Podcasts"; "Gaming & Esports";
    "Books & Literature"; "Streaming & Reviews";
    "Celebrity & Pop Culture"; "Travel Destinations";
    "Budget Travel & Backpacking"; "Luxury Travel"; "Road Trips";
    "Solo Travel"; "Travel Tips & Hacks"; "Adventure Sports";
    "Digital Nomad Life"; "Science & Research"; "History & Archaeology";
    "Space & Astronomy"; "Mathematics & Logic"; "Language Learning";
    "Online Courses"; "Study Tips & Productivity";
    "Philosophy & Critical Thinking"; "Photography";
    "Graphic Design & UI/UX"; "Video Production";
    "Digital Art & Illustration"; "Architecture & Interiors";
    "Fashion & Style"; "DIY & Crafts"; "Writing & Storytelling";
    "Minimalism & Organization"; "Parenting & Family"; "Pets & Animals";
    "Relationships & Dating"; "Luxury & Lifestyle";
    "Motivation & Self-Help"; "Spirituality & Religion";
    "Astrology & Wellness"; "World News"; "Politics & Policy";
    "Environment & Climate"; "Human Rights & Social Justice";
    "Economics & Global Markets"; "Science News"; "Sports News";
    "Local & Community"; "Football & Soccer"; "Cricket";
    "Basketball & NBA"; "Tennis & Racket Sports"; "Combat Sports & MMA";
    "Motorsports & F1"; "Viral & Trending"; "Other" ]%string.

(** What [requests.post] does with a call of the Groq API: it raises, or
    it answers with a status code and a body, read as JSON ([None] when
    [response.json()] raises). *)
Inductive ApiReply :=
| PostFailed
| ApiResponse (status_code : Z) (json_body : option pyval).

(** The service the processor talks to: it answers the n-th call of the
    run, sent to an address with a prompt (the model name, token limit and
    temperature of the payload are constants of the processor); and the
    calls made so far. *)
Record AiWorld := {
  api : nat -> pystr -> pystr -> ApiReply;
  posts : list (pystr * pystr)
}.

(** The fields of [AIProcessor] that decide what it does. *)
Record AIProcessor := {
  groq_api_key : pystr;
  groq_base_url : pystr
}.

(** [Config.CATEGORY_PROMPT.format(...)] and its siblings. The template
    texts are read by the remote model only; each is taken as a function
    of the fields it is formatted with, in the order of the call. *)
Record Prompts := {
  category_prompt : pystr -> pystr -> pystr -> pystr -> pystr;
  summary_prompt : pystr -> pystr -> pystr -> pystr -> pystr;
  tags_prompt : pystr -> pystr -> pystr -> pystr -> pystr
}.

(** [len(v)] *)
Definition py_len (v : pyval) : outcome nat :=
  match v with
  | PList l => Ret (length l)
  | PStr s => Ret (length s)
  | PDict kvs => Ret (length kvs)
  | _ => Raise TypeError
  end.

(** [v.strip()], a method only strings have. *)
Definition py_strip_value (v : pyval) : outcome pystr :=
  match v with
  | PStr s => Ret (py_strip s)
  | _ => Raise AttributeError
  end.

(** [s or default] *)
Definition or_default (s default : pystr) : pystr :=
  match s with
  | [] => default
  | _ => s
  end.

(** [sep.join(l)] *)
Fixpoint join_with (sep : pystr) (l : list pystr) : pystr :=
  match l with
  | [] => []
  | [w] => w
  | w :: l' => w ++ sep ++ join_with sep l'
  end.

(** The leading characters of [s] that are in [chars] dropped. *)
Fixpoint drop_chars (chars : pystr) (s : pystr) : pystr :=
  match s with
  | [] => []
  | c :: s' =>
      if existsb (N.eqb c) chars then drop_chars chars s' else s
  end.

(** [s.strip(chars)] *)
Definition strip_chars (chars s : pystr) : pystr :=
  rev (drop_chars chars (rev (drop_chars chars s))).

(** What [_call_groq] reads out of the decoded answer: the stripped text
    of the first choice, [None] without choices. *)
Definition reply_content (data : pyval) : outcome (option pystr) :=
  c <~ py_in (py "choices") data ;;
  if (c : bool) then
    choices <~ py_item data (py "choices") ;;
    n <~ py_len choices ;;
    if (0 <? n)%nat then
      first <~ py_item0 choices ;;
      message <~ py_item first (py "message") ;;
      content <~ py_item message (py "content") ;;
      text <~ py_strip_value content ;;
      Ret (Some text)
    else Ret None
  else Ret None.

Section Processor.

Context (L : PyLib) (T : Prompts) (P : AIProcessor).

(** [bool(self.groq_api_key)] *)
Definition is_configured : bool := truthy (PStr (groq_api_key P)).

(** [_call_groq]: no call without a key; any exception of the call or of
    reading the answer is caught and gives [None]. *)
Definition _call_groq (prompt : pystr) (w : AiWorld)
    : option pystr * AiWorld :=
  if negb (truthy (PStr (groq_api_key P))) then (None, w)
  else
    let address := groq_base_url P ++ py "/chat/completions" in
    let w' := {| api := api w; posts := posts w ++ [(address, prompt)] |} in
    match api w (length (posts w)) address prompt with
    | PostFailed => (None, w')
    | ApiResponse code body =>
        if is_error_status code then (None, w')
        else
          match body with
          | None => (None, w')
          | Some data =>
              match reply_content data with
              | Ret text => (text, w')
              | Raise _ => (None, w')
              end
          end
    end.

(** The first category that equals [result] when both are lower-cased:
    the loop of [categorize_content]. *)
Fixpoint matching_category (categories : list string) (result : pystr)
    : option pystr :=
  match categories with
  | [] => None
  | cat :: rest =>
      if pystr_eqb (str_lower L result) (str_lower L (py cat))
      then Some (py cat)
      else matching_category rest result
  end.

Definition categorize_content (url title caption : pystr) (w : AiWorld)
    : pystr * AiWorld :=
  let categories_str := join_with (py ", ") (List.map py DEFAULT_CATEGORIES) in
  let prompt := category_prompt T categories_str url
                  (or_default title (py "No title"))
                  (or_default caption (py "No caption")) in
  let '(result, w') := _call_groq prompt w in
  match result with
  | Some (c :: r) =>
      let result := py_strip (c :: r) in
      match matching_category DEFAULT_CATEGORIES result with
      | Some cat => (cat, w')
      | None => (result, w')
      end
  | _ => (py "Other", w')
  end.

(** The fallback of [summarize_content], made from the title. *)
Definition title_summary (title : pystr) : pystr :=
  match title with
  | [] => py "Click to view this content."
  | _ =>
      py "Check out: " ++ firstn 50 title
        ++ (if (50 <? length title)%nat then py "..." else [])
  end.

Definition summarize_content (url title caption platform : pystr)
    (w : AiWorld) : pystr * AiWorld :=
  let prompt := summary_prompt T url
                  (or_default title (py "Unknown title"))
                  (or_default caption (py "No caption available"))
                  platform in
  let '(result, w') := _call_groq prompt w in
  match result with
  | Some (c :: r) =>
      let result := py_strip (c :: r) in
      let result :=
        py_strip
          (replace_from (py "Description:") [] 0
             (replace_from (py "Summary:") [] 0
                (replace_from (py "One-liner:") [] 0 result))) in
      let words := split_ws result in
      if (25 <? length words)%nat
      then (join_space (firstn 25 words) ++ py "...", w')
      else (result, w')
  | _ => (title_summary title, w')
  end.

(** The fallback of [extract_tags]: keywords from the title. *)
Definition title_tags (title platform : pystr) : pystr :=
  match title with
  | [] => platform
  | _ =>
      let words := split_ws (str_lower L title) in
      let tags :=
        firstn 10
          (List.map (strip_chars (py ".,!?;:"))
             (List.filter (fun w => (3 <? length w)%nat) words)) in
      match tags with
      | [] => platform
      | _ => join_with (py ", ") tags
      end
  end.

Definition extract_tags (url title caption platform : pystr) (w : AiWorld)
    : pystr * AiWorld :=
  let prompt := tags_prompt T url
                  (or_default title (py "No title"))
                  (or_default caption (py "No caption"))
                  platform in
  let '(result, w') := _call_groq prompt w in
  match result with
  | Some (c :: r) =>
      let result := str_lower L (py_strip (c :: r)) in
      let result :=
        py_strip
          (replace_from (py "tags:") [] 0
             (replace_from [39] [] 0
                (replace_from [dquote] [] 0 result))) in
      if (3 <=? length result)%nat then (result, w')
      else (title_tags title platform, w')
  | _ => (title_tags title platform, w')
  end.

(** [process_content]: the three tasks, one after the other. *)
Definition process_content (url title caption platform : pystr)
    (w : AiWorld) : dict * AiWorld :=
  let '(category, w1) := categorize_content url title caption w in
  let '(summary, w2) := summarize_content url title caption platform w1 in
  let '(tags, w3) := extract_tags url title caption platform w2 in
  (of_list [ item "category" (PStr category);
             item "summary" (PStr summary);
             item "tags" (PStr tags) ], w3).

End Processor.

(** A processor, templates and services for the worked examples. *)
Module SampleAi.

Definition templates : Prompts :=
  {| category_prompt := fun cs u t c => t;
     summary_prompt := fun u t c p => t;
     tags_prompt := fun u t c p => t |}.

Definition with_key : AIProcessor :=
  {| groq_api_key := py "gsk_test";
     groq_base_url := py "https://api.groq.com/openai/v1" |}.

Definition without_key : AIProcessor :=
  {| groq_api_key := [];
     groq_base_url := py "https://api.groq.com/openai/v1" |}.

(** A chat completion whose first choice says [text]. *)
Definition completion (text : pystr) : pyval :=
  PDict [(py "choices",
          PList [PDict [(py "message",
                         PDict [(py "content", PStr text)])]])].

(** A service that answers every call with the same text. *)
Definition says (text : pystr) : AiWorld :=
  {| api := fun _ _ _ => ApiResponse 200 (Some (completion text));
     posts := [] |}.

(** A service that is down. *)
Definition down : AiWorld :=
  {| api := fun _ _ _ => PostFailed; posts := [] |}.

End SampleAi.

(** * Properties *)

(** ** Strings *)

Lemma strip_prefix_Some (p s r : pystr) :
  strip_prefix p s = Some r <-> s = p ++ r.
Proof.
  revert s; induction p as [|x p IH]; intros s; simpl.
  - split; [intros [= ->]; reflexivity | intros ->; reflexivity].
  - destruct s as [|y s]; [split; discriminate|].
    destruct (N.eqb_spec x y) as [->|Hne].
    + rewrite IH. split; [intros ->; reflexivity | intros [= ->]; reflexivity].
    + split; [discriminate | intros [= ? ?]; congruence].
Qed.

Lemma starts_with_true (p s : pystr) :
  starts_with p s = true <-> exists r, s = p ++ r.
Proof.
  unfold starts_with. destruct (strip_prefix p s) as [r|] eqn:E.
  - apply strip_prefix_Some in E. split; [eauto | reflexivity].
  - split; [discriminate|]. intros [r Hr].
    apply strip_prefix_Some in Hr. congruence.
Qed.

Lemma contains_cons (p : pystr) (c : N) (s : pystr) :
  contains p (c :: s) = starts_with p (c :: s) || contains p s.
Proof. reflexivity. Qed.

Lemma contains_occurs (p s : pystr) :
  contains p s = true <-> occurs p s.
Proof.
  split.
  - induction s as [|c s IH].
    + simpl. rewrite orb_false_r. intros H.
      apply starts_with_true in H as [r Hr]. exists [], r. exact Hr.
    + rewrite contains_cons. intros H. apply orb_true_iff in H as [H|H].
      * apply starts_with_true in H as [r Hr]. exists [], r. exact Hr.
      * destruct (IH H) as (a & b & ->). exists (c :: a), b. reflexivity.
  - intros (a & b & ->). induction a as [|c a IH].
    + simpl app. destruct (p ++ b) eqn:E.
      * simpl. rewrite orb_false_r. apply starts_with_true.
        exists b. symmetry; exact E.
      * rewrite contains_cons. apply orb_true_iff. left.
        apply starts_with_true. exists b. symmetry; exact E.
    + simpl app. rewrite contains_cons, IH. apply orb_true_r.
Qed.

Lemma not_contains_occurs (p s : pystr) :
  contains p s = false -> ~ occurs p s.
Proof.
  intros H Ho. apply contains_occurs in Ho. congruence.
Qed.

(** ** The classifier *)

Lemma any_pattern_in_existsb (patterns : list string) (u : pystr) :
  any_pattern_in patterns u = existsb (fun p => contains (py p) u) patterns.
Proof.
  induction patterns as [|p ps IH]; simpl; [reflexivity|].
  destruct (contains (py p) u); simpl; [reflexivity | exact IH].
Qed.

Lemma any_pattern_in_matches (patterns : list string) (u : pystr) :
  any_pattern_in patterns u = true <-> matches patterns u.
Proof.
  rewrite any_pattern_in_existsb, existsb_exists. unfold matches.
  split; intros (p & Hin & Hp); exists p; split; try exact Hin;
    apply contains_occurs; exact Hp.
Qed.

Lemma scan_platforms_classify (table : list (string * list string))
    (u : pystr) :
  scan_platforms table u = classify table u.
Proof.
  unfold classify. induction table as [|[platform patterns] rest IH]; simpl.
  - reflexivity.
  - rewrite any_pattern_in_existsb.
    destruct (existsb _ patterns); [reflexivity | exact IH].
Qed.

Lemma scan_platforms_first (before after : list (string * list string))
    (platform : string) (patterns : list string) (u : pystr) :
  matches patterns u ->
  (forall q qs, In (q, qs) before -> ~ matches qs u) ->
  scan_platforms (before ++ (platform, patterns) :: after) u = platform.
Proof.
  intros Hm. induction before as [|[q qs] before IH]; intros Hnone; simpl.
  - apply any_pattern_in_matches in Hm. rewrite Hm. reflexivity.
  - destruct (any_pattern_in qs u) eqn:E.
    + apply any_pattern_in_matches in E.
      exfalso. apply (Hnone q qs); [left; reflexivity | exact E].
    + apply IH. intros q' qs' Hin. apply (Hnone q'). right. exact Hin.
Qed.

Lemma scan_platforms_none (table : list (string * list string))
    (u : pystr) :
  (forall q qs, In (q, qs) table -> ~ matches qs u) ->
  scan_platforms table u = "blog"%string.
Proof.
  induction table as [|[q qs] rest IH]; intros Hnone; simpl.
  - reflexivity.
  - destruct (any_pattern_in qs u) eqn:E.
    + apply any_pattern_in_matches in E.
      exfalso. apply (Hnone q qs); [left; reflexivity | exact E].
    + apply IH. intros q' qs' Hin. apply (Hnone q'). right. exact Hin.
Qed.

Lemma scan_platforms_tag (table : list (string * list string)) (u : pystr) :
  In (scan_platforms table u) (List.map fst table)
  \/ scan_platforms table u = "blog"%string.
Proof.
  induction table as [|[q qs] rest IH]; simpl.
  - right. reflexivity.
  - destruct (any_pattern_in qs u).
    + left. left. reflexivity.
    + destruct IH as [IH|IH]; [left; right; exact IH | right; exact IH].
Qed.

(** The classifier answers one of the nine tags. *)
Lemma detect_platform_tag (L : PyLib) (url : pystr) :
  In (detect_platform L url) platform_tags.
Proof.
  unfold detect_platform, platform_tags.
  destruct (scan_platforms_tag PLATFORM_PATTERNS (str_lower L url)) as [H|H].
  - exact H.
  - rewrite H. simpl. do 8 right. left. reflexivity.
Qed.

(** C4. [detect_platform] is a total function of the URL alone: it scans
    the ordered table against the lower-cased URL exactly as "first
    matching platform wins, no match gives blog" says. So it answers the
    first platform of the table one of whose patterns occurs in the
    lower-cased URL, [blog] when no pattern occurs, and always one of the
    nine tags. *)
Theorem detect_platform_first_match (L : PyLib) (url : pystr) :
  detect_platform L url = classify PLATFORM_PATTERNS (str_lower L url)
  /\ (forall before platform patterns after,
        PLATFORM_PATTERNS = before ++ (platform, patterns) :: after ->
        matches patterns (str_lower L url) ->
        (forall q qs, In (q, qs) before -> ~ matches qs (str_lower L url)) ->
        detect_platform L url = platform)
  /\ ((forall q qs, In (q, qs) PLATFORM_PATTERNS ->
                    ~ matches qs (str_lower L url)) ->
      detect_platform L url = "blog"%string)
  /\ In (detect_platform L url) platform_tags.
Proof.
  split; [apply scan_platforms_classify|].
  split; [|split; [apply scan_platforms_none | apply detect_platform_tag]].
  intros before platform patterns after Htable Hm Hnone.
  unfold detect_platform. rewrite Htable.
  apply scan_platforms_first; assumption.
Qed.

Lemma detect_platform_first_match_witness :
  detect_platform Sample.lib (py "https://YouTu.be/abc123") = "youtube"%string.
Proof.
  apply (proj1 (proj2 (detect_platform_first_match Sample.lib
                         (py "https://YouTu.be/abc123")))
           [ ("instagram", ["instagram.com"; "instagr.am"]);
             ("twitter", ["twitter.com"; "x.com"]);
             ("facebook", ["facebook.com"; "fb.com"]) ]%string
           "youtube"%string ["youtube.com"; "youtu.be"]%string
           [ ("tiktok", ["tiktok.com"]);
             ("linkedin", ["linkedin.com"]);
             ("reddit", ["reddit.com"; "redd.it"]);
             ("pinterest", ["pinterest.com"; "pin.it"]);
             ("blog", []) ]%string).
  - reflexivity.
  - apply any_pattern_in_matches. vm_compute. reflexivity.
  - intros q qs Hin Hm. apply any_pattern_in_matches in Hm.
    simpl in Hin. destruct Hin as [[= <- <-]|[[= <- <-]|[[= <- <-]|[]]]];
      vm_compute in Hm; discriminate.
Defined.

(** ** The dispatcher *)

Lemma is_valid_url_true (L : PyLib) (url : pystr) :
  is_valid_url L url = true <->
  exists scheme netloc,
    urlparse L url = Some (scheme, netloc) /\ scheme <> [] /\ netloc <> [].
Proof.
  unfold is_valid_url. destruct (urlparse L url) as [[scheme netloc]|].
  - destruct scheme as [|a sch], netloc as [|b loc]; simpl; split;
      try discriminate; try reflexivity.
    + intros (s' & n' & [= <- <-] & Hs & _). congruence.
    + intros (s' & n' & [= <- <-] & Hs & _). congruence.
    + intros (s' & n' & [= <- <-] & _ & Hn). congruence.
    + intros _. eexists _, _. split; [reflexivity | split; discriminate].
  - split; [discriminate | intros (s' & n' & [=] & _)].
Qed.

Lemma extract_invalid (L : PyLib) (url : pystr) (w : World) :
  is_valid_url L url = false ->
  extract L url w = (Ret (failure "Invalid URL format"), w).
Proof.
  intros H. unfold extract. rewrite H. reflexivity.
Qed.

Lemma extract_valid (L : PyLib) (url : pystr) (w : World) :
  is_valid_url L url = true ->
  extract L url w =
  table_get (extractors L) (detect_platform L url) _extract_generic url w.
Proof.
  intros H. unfold extract. rewrite H. reflexivity.
Qed.

(** C2. A string without a scheme or without a host is refused with the
    error "Invalid URL format", and the world is left as it was, so no
    request is sent. A well-formed URL is classified and handed to the
    strategy of its platform, the generic one for [blog]; the nine cases
    are all there are. *)
Theorem extract_dispatch (L : PyLib) (url : pystr) (w : World) :
  (forall scheme netloc,
      urlparse L url = Some (scheme, netloc) ->
      scheme = [] \/ netloc = [] ->
      exists result,
        extract L url w = (Ret result, w)
        /\ result !! "success"%string = Some (PBool false)
        /\ result !! "error"%string = Some (PStr (py "Invalid URL format"))
        /\ requests (snd (extract L url w)) = requests w)
  /\ (forall scheme netloc,
        urlparse L url = Some (scheme, netloc) ->
        scheme <> [] -> netloc <> [] ->
        let platform := detect_platform L url in
        (platform = "instagram"%string ->
         extract L url w = _extract_instagram L url w)
        /\ (platform = "twitter"%string ->
            extract L url w = _extract_twitter L url w)
        /\ (platform = "facebook"%string ->
            extract L url w = _extract_facebook url w)
        /\ (platform = "youtube"%string ->
            extract L url w = _extract_youtube url w)
        /\ (platform = "tiktok"%string ->
            extract L url w = _extract_tiktok url w)
        /\ (platform = "linkedin"%string ->
            extract L url w = _extract_linkedin url w)
        /\ (platform = "reddit"%string ->
            extract L url w = _extract_reddit url w)
        /\ (platform = "pinterest"%string ->
            extract L url w = _extract_pinterest url w)
        /\ (platform = "blog"%string ->
            extract L url w = _extract_generic url w)
        /\ In platform platform_tags).
Proof.
  split.
  - intros scheme netloc Hparse Hempty.
    assert (Hinvalid : is_valid_url L url = false).
    { unfold is_valid_url. rewrite Hparse.
      destruct Hempty as [-> | ->]; [reflexivity | apply andb_false_r]. }
    exists (failure "Invalid URL format").
    rewrite (extract_invalid L url w Hinvalid).
    repeat split; reflexivity.
  - intros scheme netloc Hparse Hs Hn platform.
    assert (Hvalid : is_valid_url L url = true).
    { apply is_valid_url_true. exists scheme, netloc. auto. }
    pose proof (extract_valid L url w Hvalid) as E. fold platform in E.
    repeat split; try (intros Hp; rewrite E, Hp; reflexivity).
    apply detect_platform_tag.
Qed.

Lemma extract_dispatch_witness :
  (exists result,
      extract Sample.lib (py "not a url") Sample.offline
      = (Ret result, Sample.offline)
      /\ result !! "success"%string = Some (PBool false)
      /\ result !! "error"%string = Some (PStr (py "Invalid URL format"))
      /\ requests (snd (extract Sample.lib (py "not a url") Sample.offline))
         = requests Sample.offline)
  /\ extract Sample.lib (py "https://www.reddit.com/r/coq") Sample.offline
     = _extract_reddit (py "https://www.reddit.com/r/coq") Sample.offline.
Proof.
  split.
  - apply (proj1 (extract_dispatch Sample.lib (py "not a url")
                    Sample.offline) [] []).
    + reflexivity.
    + left. reflexivity.
  - pose proof (proj2 (extract_dispatch Sample.lib
                         (py "https://www.reddit.com/r/coq") Sample.offline)
                  (py "https") (py "www.reddit.com")) as H.
    apply H; [reflexivity | discriminate | discriminate | reflexivity].
Defined.

(** ** The short title *)

Lemma drop_space_length (s : pystr) :
  (length (drop_space s) <= length s)%nat.
Proof.
  induction s as [|c s IH]; simpl; [lia|].
  destruct (is_space c); simpl; lia.
Qed.

Lemma py_strip_length (s : pystr) :
  (length (py_strip s) <= length s)%nat.
Proof.
  unfold py_strip. rewrite length_rev.
  pose proof (drop_space_length (rev (drop_space s))) as H1.
  pose proof (drop_space_length s) as H2.
  rewrite length_rev in H1. lia.
Qed.

(** C8. On every string [_clean_instagram_title] returns a title of at
    most 61 characters, 60 and the period put back; on the empty string
    it returns the default label "Instagram Post", which is not empty. *)
Theorem clean_title_bound (L : PyLib) (caption : pystr) :
  (exists title,
      _clean_instagram_title L (PStr caption) = Ret title
      /\ (length title <= 61)%nat)
  /\ _clean_instagram_title L (PStr []) = Ret (py "Instagram Post")
  /\ length (py "Instagram Post") = 14%nat.
Proof.
  split; [|split; reflexivity].
  unfold _clean_instagram_title.
  destruct (negb (truthy (PStr caption))).
  { eexists; split; [reflexivity | simpl; lia]. }
  set (text := strip_social_noise L caption).
  destruct (existsb is_dot text && (length (before_char dot text) <=? 60)%nat)
    eqn:E.
  - eexists; split; [reflexivity|].
    apply andb_true_iff in E as [_ E]. apply Nat.leb_le in E.
    rewrite length_app.
    pose proof (py_strip_length (before_char dot text)). simpl. lia.
  - eexists; split; [reflexivity|].
    destruct text as [|c text']; [simpl; lia|].
    pose proof (py_strip_length (firstn 60 (c :: text'))) as H.
    pose proof (firstn_le_length 60 (c :: text')) as H'.
    rewrite length_firstn in H. lia.
Qed.

(** ** The retry wrapper *)

Lemma failure_not_success (o : outcome dict) :
  is_failure o -> ~ is_success o.
Proof.
  intros (r & -> & Hf) (r' & [= <-] & Hs). congruence.
Qed.

Section RetryProperties.

Context {S : Type}.
Context (dispatcher : pystr -> S -> outcome dict * S).
Context (sleep : S -> S).
Context (url : pystr) (max_retries : Z).

Lemma sleep_logged_if (b : bool) (s : S) (log : list (outcome dict)) :
  (if b then sleep_logged sleep (s, log) else (s, log))
  = ((if b then sleep s else s), log).
Proof. destruct b; reflexivity. Qed.

Lemma last_default_irrelevant {A : Type} (x : A) (l : list A) (d d' : A) :
  List.last (x :: l) d = List.last (x :: l) d'.
Proof.
  revert x. induction l as [|y l IH]; intros x; [reflexivity|].
  change (List.last (y :: l) d = List.last (y :: l) d'). apply IH.
Qed.

Lemma last_after_failure (result : dict) (pre : list (outcome dict))
    (last : option dict) :
  List.last pre (unbound_or (Some result))
  = List.last (Ret result :: pre) (unbound_or last).
Proof.
  destruct pre as [|o pre]; [reflexivity|].
  change (List.last (Ret result :: o :: pre) (unbound_or last))
    with (List.last (o :: pre) (unbound_or last)).
  apply last_default_irrelevant.
Qed.

Lemma logged_pair (s : S) (log : list (outcome dict)) :
  logged dispatcher url (s, log)
  = (fst (dispatcher url s),
     (snd (dispatcher url s), log ++ [fst (dispatcher url s)])).
Proof. unfold logged. simpl. destruct (dispatcher url s); reflexivity. Qed.

(** A run of the loop from any point: it agrees with the run that keeps
    no log, and the calls it adds are failures up to the last one; either
    the range is exhausted, or the last call stopped the loop. *)
Lemma retry_loop_run (n : nat) :
  forall (attempt : Z) (last : option dict) (s : S)
         (log : list (outcome dict)),
    let run := retry_loop (logged dispatcher) (sleep_logged sleep)
                 url max_retries n attempt last (s, log) in
    let plain := retry_loop dispatcher sleep url max_retries n attempt last s in
    fst run = fst plain
    /\ fst (snd run) = snd plain
    /\ exists pre,
         Forall is_failure pre
         /\ ((snd (snd run) = log ++ pre
              /\ length pre = n
              /\ fst run = List.last pre (unbound_or last))
             \/ (exists o s0,
                   snd (snd run) = log ++ pre ++ [o]
                   /\ (length pre < n)%nat
                   /\ ~ is_failure o
                   /\ o = fst (dispatcher url s0)
                   /\ fst run = o)).
Proof.
  induction n as [|n IH]; intros attempt last s log; cbv zeta.
  - simpl. destruct last; simpl; (split; [reflexivity|split; [reflexivity|]]);
      exists []; (split; [constructor|]); left;
      rewrite app_nil_r; auto.
  - cbn [retry_loop]. rewrite logged_pair.
    destruct (dispatcher url s) as [[result|e] s1] eqn:Ecall.
    + cbn [fst snd].
      destruct (truthy (dict_get result "success")) eqn:Hs; cbn [fst snd].
      * split; [reflexivity|split; [reflexivity|]].
        exists []; split; [constructor|]. right. exists (Ret result), s.
        rewrite Ecall.
        repeat split; try reflexivity; try (simpl; lia).
        intros (r & [= <-] & Hf). congruence.
      * rewrite sleep_logged_if.
        specialize (IH (attempt + 1)%Z (Some result)
                      (if (attempt <? max_retries - 1)%Z then sleep s1 else s1)
                      (log ++ [Ret result])).
        cbv zeta in IH. destruct IH as (E1 & E2 & pre & Hpre & Hcases).
        split; [exact E1|split; [exact E2|]].
        exists (Ret result :: pre). split.
        { constructor; [exists result; auto | exact Hpre]. }
        destruct Hcases
          as [(Hlog & Hlen & Hout) | (o & s0 & Hlog & Hlen & Ho & Hd & Hout)].
        -- left. rewrite Hlog, Hout, <- app_assoc. simpl.
           repeat split; try lia. apply last_after_failure.
        -- right. exists o, s0. rewrite Hlog, Hout, <- app_assoc. simpl.
           repeat split; try lia; assumption.
    + cbn [fst snd]. split; [reflexivity|split; [reflexivity|]].
      exists []; split; [constructor|]. right. exists (Raise e), s.
      rewrite Ecall.
      repeat split; try reflexivity; try (simpl; lia).
      intros (r & [=] & _).
Qed.

(** The same for a whole run of [retry_with]. *)
Lemma retry_with_run (s : S) :
  let out := retry_outcome dispatcher sleep url max_retries s in
  let calls := retry_calls dispatcher sleep url max_retries s in
  retry_with dispatcher sleep url max_retries s
  = (out, fst (snd (retry_with (logged dispatcher) (sleep_logged sleep)
                      url max_retries (s, []))))
  /\ exists pre,
       Forall is_failure pre
       /\ ((calls = pre
            /\ length pre = Z.to_nat max_retries
            /\ out = List.last pre (Raise UnboundLocalError))
           \/ (exists o s0,
                 calls = pre ++ [o]
                 /\ (length pre < Z.to_nat max_retries)%nat
                 /\ ~ is_failure o
                 /\ o = fst (dispatcher url s0)
                 /\ out = o)).
Proof.
  cbv zeta. unfold retry_outcome, retry_calls, retry_with.
  destruct (retry_loop_run (Z.to_nat max_retries) 0%Z None s [])
    as (E1 & E2 & pre & Hpre & Hcases).
  cbv zeta in E1, E2, Hcases. split.
  - rewrite E1, E2. apply surjective_pairing.
  - exists pre. split; [exact Hpre|]. exact Hcases.
Qed.

Lemma last_In {A : Type} (x : A) (l : list A) (d : A) :
  In (List.last (x :: l) d) (x :: l).
Proof.
  revert x. induction l as [|y l IH]; intros x; [left; reflexivity|].
  right. apply IH.
Qed.

End RetryProperties.

(** C3. [extract_with_retry] run on any dispatcher: it calls the
    dispatcher at most [max_attempts] times; every call before the last
    one failed and the value returned is the outcome of the last call,
    unchanged, so the loop stops at the first success; and a failure is
    returned only when all the attempts are used up. A dispatcher that
    always fails is called exactly [max_attempts] times (3 for 3) and a
    failure comes back; one that fails twice and then succeeds is called
    exactly 3 times and its success comes back. *)
Theorem retry_first_success_or_last_failure {S : Type}
    (dispatcher : pystr -> S -> outcome dict * S) (sleep : S -> S)
    (url : pystr) (max_attempts : Z) (s : S) :
  let out := retry_outcome dispatcher sleep url max_attempts s in
  let calls := retry_calls dispatcher sleep url max_attempts s in
  fst (retry_with dispatcher sleep url max_attempts s) = out
  /\ (length calls <= Z.to_nat max_attempts)%nat
  /\ (forall pre o, calls = pre ++ [o] -> Forall is_failure pre /\ out = o)
  /\ (forall o, In o calls -> is_success o -> out = o)
  /\ (is_failure out -> length calls = Z.to_nat max_attempts)
  /\ ((forall s0, is_failure (fst (dispatcher url s0))) ->
      (1 <= max_attempts)%Z ->
      length calls = Z.to_nat max_attempts /\ is_failure out)
  /\ (forall r1 s1 r2 s2 r3 s3,
        max_attempts = 3%Z ->
        dispatcher url s = (Ret r1, s1) ->
        truthy (dict_get r1 "success") = false ->
        dispatcher url (sleep s1) = (Ret r2, s2) ->
        truthy (dict_get r2 "success") = false ->
        dispatcher url (sleep s2) = (Ret r3, s3) ->
        truthy (dict_get r3 "success") = true ->
        calls = [Ret r1; Ret r2; Ret r3] /\ out = Ret r3).
Proof.
  intros out calls.
  destruct (retry_with_run dispatcher sleep url max_attempts s)
    as (Eplain & pre & Hpre & Hcases).
  fold out in Eplain, Hcases. fold calls in Hcases.
  split; [rewrite Eplain; reflexivity|].
  split.
  { destruct Hcases as [(-> & Hlen & _) | (o & s0 & -> & Hlen & _)].
    - lia.
    - rewrite length_app. simpl. lia. }
  split.
  { intros pre' o' Hcalls.
    destruct Hcases as [(E & _ & Hout) | (o & s0 & E & _ & _ & _ & Hout)].
    - rewrite E in Hcalls. rewrite Hcalls in Hpre, Hout.
      apply Forall_app in Hpre as [Hpre _]. split; [exact Hpre|].
      rewrite Hout. apply last_last.
    - rewrite E in Hcalls. apply app_inj_tail in Hcalls as [<- <-].
      split; assumption. }
  split.
  { intros o' Hin Hsucc.
    destruct Hcases as [(E & _ & _) | (o & s0 & E & _ & _ & _ & Hout)].
    - rewrite E in Hin. rewrite Forall_forall in Hpre.
      exfalso. apply (failure_not_success o'); [apply Hpre, Hin | exact Hsucc].
    - rewrite E in Hin. apply in_app_iff in Hin as [Hin|[<-|[]]].
      + rewrite Forall_forall in Hpre.
        exfalso. apply (failure_not_success o'); [apply Hpre, Hin | exact Hsucc].
      + exact Hout. }
  split.
  { intros Hfail.
    destruct Hcases as [(-> & Hlen & _) | (o & s0 & _ & _ & Ho & _ & Hout)].
    - exact Hlen.
    - rewrite Hout in Hfail. contradiction. }
  split.
  { intros Hall Hpos.
    destruct Hcases as [(E & Hlen & Hout) | (o & s0 & _ & _ & Ho & Hd & _)].
    - rewrite E. split; [exact Hlen|].
      destruct pre as [|x pre]; [simpl in Hlen; lia|].
      rewrite Hout. rewrite Forall_forall in Hpre. apply Hpre, last_In.
    - exfalso. apply Ho. rewrite Hd. apply Hall. }
  intros r1 s1 r2 s2 r3 s3 -> H1 F1 H2 F2 H3 T3.
  subst out calls. unfold retry_outcome, retry_calls, retry_with.
  change (Z.to_nat 3) with 3%nat. cbn [retry_loop].
  rewrite logged_pair, H1. cbn [fst snd]. rewrite F1.
  rewrite sleep_logged_if. change (0 <? 3 - 1)%Z with true. cbv iota.
  rewrite logged_pair, H2. cbn [fst snd]. rewrite F2.
  rewrite sleep_logged_if. change (0 + 1 <? 3 - 1)%Z with true. cbv iota.
  rewrite logged_pair, H3. cbn [fst snd]. rewrite T3.
  split; reflexivity.
Qed.

Lemma retry_first_success_or_last_failure_witness :
  (length (retry_calls Sample.always_fails (fun c => c)
             (py "https://example.com/a") 3 0%nat) = 3%nat
   /\ is_failure (retry_outcome Sample.always_fails (fun c => c)
                    (py "https://example.com/a") 3 0%nat))
  /\ (retry_calls Sample.fails_twice (fun c => c)
        (py "https://example.com/a") 3 0%nat
      = [Ret Sample.failed; Ret Sample.failed; Ret Sample.succeeded]
      /\ retry_outcome Sample.fails_twice (fun c => c)
           (py "https://example.com/a") 3 0%nat = Ret Sample.succeeded).
Proof.
  pose proof (retry_first_success_or_last_failure Sample.always_fails
                (fun c => c) (py "https://example.com/a") 3 0%nat) as Ha.
  pose proof (retry_first_success_or_last_failure Sample.fails_twice
                (fun c => c) (py "https://example.com/a") 3 0%nat) as Hb.
  cbv zeta in Ha, Hb.
  destruct Ha as (_ & _ & _ & _ & _ & Ha & _).
  destruct Hb as (_ & _ & _ & _ & _ & _ & Hb).
  split.
  - apply Ha; [|lia].
    intros s0. exists Sample.failed. split; reflexivity.
  - apply (Hb Sample.failed 1%nat Sample.failed 2%nat Sample.succeeded 3%nat);
      reflexivity.
Defined.



(** ** The YouTube strategy *)

(** The page [_make_request] hands over, when the request is answered
    with a status that is not an error. *)
Lemma make_request_page (url : pystr) (w : World) (code : Z) (doc : Soup)
    (body : option pyval) :
  net w (length (requests w)) url = Response code doc body ->
  is_error_status code = false ->
  _make_request url w
  = (Ret (Some doc),
     {| net := net w; requests := requests w ++ [url]; slept := slept w |}).
Proof.
  intros Hnet Hcode. unfold _make_request, bind, session_get.
  rewrite Hnet, Hcode. reflexivity.
Qed.




(** ** The record a successful extraction returns *)

(** The two ways [_make_request] ends, and the world it leaves. *)
Lemma fetch_then (url : pystr) (w : World) :
  (_make_request url w
   = (Ret None, {| net := net w; requests := requests w ++ [url];
                   slept := slept w |}))
  \/ (exists code doc body,
        net w (length (requests w)) url = Response code doc body
        /\ _make_request url w
           = (Ret (Some doc), {| net := net w; requests := requests w ++ [url];
                                 slept := slept w |})).
Proof.
  unfold _make_request, bind, session_get.
  destruct (net w (length (requests w)) url) as [|code doc body] eqn:E.
  - left. reflexivity.
  - destruct (is_error_status code).
    + left. reflexivity.
    + right. exists code, doc, body. split; reflexivity.
Qed.

Lemma returned_result {A W : Type} (a b : A) (w w' : W) :
  (Ret a, w) = (Ret b, w') -> a = b.
Proof. intros H. injection H as -> _. reflexivity. Qed.

Ltac invariant_of_failure :=
  left; split; [reflexivity|]; eexists; split; [reflexivity | discriminate].

Ltac invariant_of_success :=
  right; split; [reflexivity|];
  repeat split;
  try (eexists; split; [reflexivity | discriminate]);
  try (eexists; reflexivity).

Ltac read_contents H :=
  repeat match type of H with
         | context [content_or ?t ?d] =>
             let v := fresh "v" in
             destruct (content_or t d) as [v|]; [|discriminate H]
         end.

Lemma og_strategy_invariant (platform failed default_title media : string)
    (url : pystr) (w : World) (d : dict) (w' : World) :
  py platform <> [] -> py failed <> [] -> py media <> [] ->
  og_strategy platform failed default_title media url w = (Ret d, w') ->
  result_invariant d.
Proof.
  intros Hp Hf Hm H. unfold og_strategy, bind in H.
  destruct (fetch_then url w) as [E | (code & doc & body & _ & E)];
    rewrite E in H.
  - apply returned_result in H; subst d. left. split; [reflexivity|].
    eexists; split; [reflexivity | exact Hf].
  - unfold lift, ret in H. read_contents H. apply returned_result in H; subst d.
    right. split; [reflexivity|].
    split; [eexists; split; [reflexivity | exact Hp]|].
    split; [eexists; reflexivity|].
    split; [eexists; split; [reflexivity | exact Hm]|].
    split; eexists; reflexivity.
Qed.

Lemma youtube_invariant (url : pystr) (w : World) (d : dict) (w' : World) :
  _extract_youtube url w = (Ret d, w') -> result_invariant d.
Proof.
  intros H. unfold _extract_youtube, bind in H.
  destruct (fetch_then url w) as [E | (code & doc & body & _ & E)];
    rewrite E in H.
  - apply returned_result in H; subst d. invariant_of_failure.
  - unfold lift, ret in H.
    destruct (youtube_video_id url); read_contents H; cbv beta iota in H.
    + apply returned_result in H; subst d. invariant_of_success.
    + apply returned_result in H; subst d. invariant_of_success.
Qed.

Lemma generic_invariant (url : pystr) (w : World) (d : dict) (w' : World) :
  _extract_generic url w = (Ret d, w') -> result_invariant d.
Proof.
  intros H. unfold _extract_generic, bind in H.
  destruct (fetch_then url w) as [E | (code & doc & body & _ & E)];
    rewrite E in H.
  - apply returned_result in H; subst d. invariant_of_failure.
  - unfold lift, ret in H.
    destruct (find (is_tag "title") doc);
      destruct (find_meta_name "description" doc);
      unfold obind in H; read_contents H; cbv beta iota in H;
      apply returned_result in H; subst d; invariant_of_success.
Qed.

Lemma twitter_invariant (L : PyLib) (url : pystr) (w : World) (d : dict)
    (w' : World) :
  _extract_twitter L url w = (Ret d, w') -> result_invariant d.
Proof.
  intros H. unfold _extract_twitter, bind in H.
  unfold session_get at 1 in H.
  match type of H with
  | context [match ?o with Some d => ret d | None => _ end] =>
      destruct o as [d0|] eqn:Eo
  end.
  - apply returned_result in H; subst d.
    destruct (net w _ _) as [|code doc [data|]]; try discriminate Eo.
    destruct (code =? 200)%Z; [|discriminate Eo].
    destruct (oembed_result L url data) as [d1|] eqn:E1; [|discriminate Eo].
    injection Eo as <-. unfold oembed_result, obind in E1.
    destruct (py_get data (py "html") (PStr [])) as [h|]; [|discriminate E1].
    destruct (py_get data (py "author_name") (PStr [])) as [a|];
      [|discriminate E1].
    destruct h; try discriminate E1. injection E1 as <-.
    invariant_of_success.
  - clear Eo.
    match type of H with
    | context [_make_request url ?w1] =>
        destruct (fetch_then url w1)
          as [E | (code & doc & body & _ & E)]; rewrite E in H
    end.
    + unfold lift, ret in H. apply returned_result in H; subst d.
      unfold twitter_fallback. destruct (url_author url); invariant_of_success.
    + unfold lift in H.
      destruct (twitter_page L url doc) as [[d1|]|] eqn:Ep;
        [| |discriminate H].
      * apply returned_result in H; subst d. unfold twitter_page in Ep.
        match type of Ep with
        | context [match ?p with (_, _) => _ end] =>
            destruct p as [cap au]
        end.
        destruct cap; [discriminate Ep|].
        unfold obind in Ep.
        destruct (find_meta_property "og:title" doc);
          [destruct (tag_item _ _); [|discriminate Ep]|];
          read_contents Ep; injection Ep as <-; invariant_of_success.
      * apply returned_result in H; subst d.
        unfold twitter_fallback. destruct (url_author url);
          invariant_of_success.
Qed.

Lemma clean_title_string (L : PyLib) (s : pystr) :
  exists t, _clean_instagram_title L (PStr s) = Ret t.
Proof.
  unfold _clean_instagram_title.
  destruct (negb (truthy (PStr s))); [eexists; reflexivity|].
  destruct (_ && _); eexists; reflexivity.
Qed.

Lemma instagram_invariant (L : PyLib) (url : pystr) (w : World) (d : dict)
    (w' : World) :
  no_shared_data L url w ->
  _extract_instagram L url w = (Ret d, w') -> result_invariant d.
Proof.
  intros Hno H. unfold _extract_instagram, bind in H.
  destruct (fetch_then url w) as [E | (code & doc & body & Hnet & E)];
    rewrite E in H.
  - apply returned_result in H; subst d. invariant_of_failure.
  - unfold lift, ret in H. read_contents H.
    assert (Hblob : match find_script "window" "_sharedData" doc with
                    | Some script => shared_data L script
                    | None => None
                    end = None).
    { destruct (find_script "window" "_sharedData" doc) as [script|] eqn:Es;
        [|reflexivity].
      exact (Hno code doc body script Hnet Es). }
    destruct (find_script "window" "_sharedData" doc) as [script|].
    + rewrite Hblob in H.
      destruct (clean_title_string L v) as [t Ht]. rewrite Ht in H.
      apply returned_result in H; subst d. invariant_of_success.
    + destruct (clean_title_string L v) as [t Ht]. rewrite Ht in H.
      apply returned_result in H; subst d. invariant_of_success.
Qed.

(** Every result [extract] returns satisfies the invariant of the record,
    as long as the Instagram strategy meets no shared-data blob it can
    parse. *)
Lemma extract_result_invariant (L : PyLib) (url : pystr) (w : World)
    (d : dict) (w' : World) :
  (detect_platform L url = "instagram"%string -> no_shared_data L url w) ->
  extract L url w = (Ret d, w') ->
  result_invariant d.
Proof.
  intros Hinsta H. unfold extract in H.
  destruct (is_valid_url L url); simpl negb in H; cbv iota in H.
  2:{ apply returned_result in H; subst d. invariant_of_failure. }
  pose proof (detect_platform_tag L url) as Htag.
  unfold platform_tags in Htag. simpl in Htag.
  destruct Htag as [E|[E|[E|[E|[E|[E|[E|[E|[E|[]]]]]]]]]];
    rewrite <- E in H; simpl in H.
  - apply (instagram_invariant L url w d w'); [|exact H].
    apply Hinsta. symmetry. exact E.
  - apply (twitter_invariant L url w d w' H).
  - apply (og_strategy_invariant _ _ _ _ url w d w') in H;
      [exact H | discriminate..].
  - apply (youtube_invariant url w d w' H).
  - apply (og_strategy_invariant _ _ _ _ url w d w') in H;
      [exact H | discriminate..].
  - apply (og_strategy_invariant _ _ _ _ url w d w') in H;
      [exact H | discriminate..].
  - apply (og_strategy_invariant _ _ _ _ url w d w') in H;
      [exact H | discriminate..].
  - apply (og_strategy_invariant _ _ _ _ url w d w') in H;
      [exact H | discriminate..].
  - apply (generic_invariant url w d w' H).
Qed.

(** C1, on the code: an Instagram page whose embedded shared-data blob
    has a caption node with [text] set to [null]. The lookup
    [.get('text', full_caption)] finds the key and answers [None]; the
    result is a success whose caption is [None], not a string, so the
    invariant of the record does not hold of it. *)
Theorem instagram_null_caption :
  exists result w',
    extract Sample.lib (py "https://www.instagram.com/p/Cabc/")
      (Sample.page Sample.null_caption_page)
    = (Ret result, w')
    /\ result !! "success"%string = Some (PBool true)
    /\ result !! "caption"%string = Some PNone
    /\ result !! "title"%string = Some (PStr (py "Instagram Post"))
    /\ ~ result_invariant result.
Proof.
  eexists _, _. split; [vm_compute; reflexivity|].
  split; [reflexivity|]. split; [reflexivity|]. split; [reflexivity|].
  intros [(Hs & _) | (_ & _ & _ & _ & _ & (s & Hc))].
  - vm_compute in Hs. discriminate Hs.
  - vm_compute in Hc. discriminate Hc.
Qed.

(** ** Faults that leave the subsystem *)

(** C5, on the code: a Facebook page whose [og:title] tag has no
    [content] attribute. The tag is found, [title['content']] raises
    KeyError, nothing catches it, and it leaves [extract] and
    [extract_with_retry] alike. *)
Theorem facebook_bare_meta_raises :
  fst (extract Sample.lib (py "https://www.facebook.com/some.page/posts/1")
         (Sample.page [Sample.bare_meta "og:title"]))
  = Raise KeyError
  /\ fst (extract_with_retry Sample.lib
            (py "https://www.facebook.com/some.page/posts/1") 3
            (Sample.page [Sample.bare_meta "og:title"]))
     = Raise KeyError.
Proof.
  split; vm_compute; reflexivity.
Qed.

(** ** The Twitter fallback *)

(** When the oEmbed request and the page request both raise, the
    strategy answers with its final fallback, after two requests. *)
Lemma twitter_fallback_when_offline (L : PyLib) (url : pystr) (w : World) :
  (forall n u, net w n u = RequestFailed) ->
  exists w',
    _extract_twitter L url w = (Ret (twitter_fallback url), w')
    /\ length (requests w') = (length (requests w) + 2)%nat.
Proof.
  intros Hnet. unfold _extract_twitter, bind.
  unfold session_get at 1. rewrite Hnet.
  unfold _make_request, bind, session_get. cbn [net requests slept].
  rewrite Hnet. cbn [ret lift].
  eexists. split; [reflexivity|].
  cbn [requests]. rewrite !length_app. simpl. lia.
Qed.

(** A handle behind [twitter.com/] is found. *)
Example url_author_twitter :
  url_author (py "https://twitter.com/jack/status/20") = py "jack".
Proof. reflexivity. Qed.

(** C6, on the code: a post addressed through [x.com], with both requests
    failing. The classifier sends the URL to the Twitter strategy, whose
    fallback looks for the handle behind [twitter.com/] only: the result
    has an empty author and the generic placeholders, and the handle
    "jack" of the URL path is not in it. *)
Theorem twitter_x_url_loses_handle :
  detect_platform Sample.lib (py "https://x.com/jack/status/20")
  = "twitter"%string
  /\ exists result w',
       extract Sample.lib (py "https://x.com/jack/status/20") Sample.offline
       = (Ret result, w')
       /\ length (requests w') = 2%nat
       /\ result !! "success"%string = Some (PBool true)
       /\ result !! "author"%string = Some (PStr [])
       /\ result !! "title"%string = Some (PStr (py "Twitter Post"))
       /\ result !! "caption"%string
          = Some (PStr (py "Twitter Post " ++ em_dash :: py " click to view")).
Proof.
  split; [reflexivity|].
  eexists _, _. split; [vm_compute; reflexivity|].
  repeat split; reflexivity.
Qed.

(** ** The cleaning pipeline *)

Section NormalizerProperties.

Context (L : PyLib).

Lemma sub_token_fixed (m : N) (s : pystr) :
  has_token L m s = false -> sub_token L m false s = s.
Proof.
  induction s as [|c s IH]; simpl; [reflexivity|].
  intros H. apply orb_false_iff in H as [H1 H2].
  rewrite H1, IH by exact H2. reflexivity.
Qed.

Lemma strip_emoji_fixed (s : pystr) :
  Forall (fun c => is_emoji c = false) s -> strip_emoji s = s.
Proof.
  unfold strip_emoji. induction 1 as [|c s Hc _ IH]; simpl; [reflexivity|].
  rewrite Hc, IH. reflexivity.
Qed.

Lemma strip_emoji_clean (s : pystr) :
  Forall (fun c => is_emoji c = false) (strip_emoji s).
Proof.
  unfold strip_emoji. induction s as [|c s IH]; simpl; [constructor|].
  destruct (is_emoji c) eqn:E; simpl; [exact IH | constructor; assumption].
Qed.

Lemma sub_dots_Forall (P : N -> Prop) (s : pystr) :
  Forall P s -> forall prev, Forall P (sub_dots prev s).
Proof.
  induction 1 as [|c s Hc _ IH]; intros prev; simpl; [constructor|].
  destruct (is_dot c); [destruct (prev || starts_with_dot s)|];
    auto using Forall_cons.
Qed.

Lemma sub_dots_head (s : pystr) :
  starts_with_dot (sub_dots true s) = false.
Proof.
  induction s as [|c s IH]; simpl; [reflexivity|].
  destruct (is_dot c) eqn:E; simpl; [exact IH | exact E].
Qed.

Lemma sub_dots_no_double_dot (s : pystr) :
  forall prev, no_double_dot (sub_dots prev s) = true.
Proof.
  induction s as [|c s IH]; intros prev; simpl; [reflexivity|].
  destruct (is_dot c) eqn:E.
  - destruct (prev || starts_with_dot s); [apply IH|].
    simpl. rewrite sub_dots_head, IH, andb_false_r. reflexivity.
  - simpl. rewrite E, IH. reflexivity.
Qed.

Lemma sub_dots_fixed (s : pystr) :
  no_double_dot s = true ->
  forall prev, (prev = true -> starts_with_dot s = false) ->
  sub_dots prev s = s.
Proof.
  induction s as [|c s IH]; intros Hs prev Hprev; simpl; [reflexivity|].
  simpl in Hs. apply andb_true_iff in Hs as [Hpair Hs].
  destruct (is_dot c) eqn:E.
  - simpl in Hpair. apply negb_true_iff in Hpair.
    destruct prev; [specialize (Hprev eq_refl); simpl in Hprev; congruence|].
    simpl. rewrite Hpair. f_equal. apply IH; [exact Hs | intros _; exact Hpair].
  - f_equal. apply IH; [exact Hs | discriminate].
Qed.

Lemma split_ws_nonspace (c : N) (s : pystr) :
  is_space c = false ->
  split_ws (c :: s)
  = match s with
    | [] => [[c]]
    | d :: _ =>
        if is_space d then [c] :: split_ws s
        else match split_ws s with
             | w :: ws => (c :: w) :: ws
             | [] => [[c]]
             end
    end.
Proof. intros H. simpl. rewrite H. reflexivity. Qed.

Lemma split_ws_space (c : N) (s : pystr) :
  is_space c = true -> split_ws (c :: s) = split_ws s.
Proof. intros H. simpl. rewrite H. reflexivity. Qed.

Lemma split_ws_head (d : N) (r : pystr) :
  is_space d = false -> exists w ws, split_ws (d :: r) = (d :: w) :: ws.
Proof.
  intros H. rewrite (split_ws_nonspace d r H).
  destruct r as [|e r]; [eexists _, _; reflexivity|].
  destruct (is_space e); [eexists _, _; reflexivity|].
  destruct (split_ws (e :: r)); eexists _, _; reflexivity.
Qed.

Lemma split_ws_Forall (P : N -> Prop) (s : pystr) :
  Forall P s -> Forall (Forall P) (split_ws s).
Proof.
  induction 1 as [|c s Hc Hs IH]; [constructor|].
  destruct (is_space c) eqn:E.
  - rewrite split_ws_space by exact E. exact IH.
  - rewrite split_ws_nonspace by exact E.
    destruct s as [|d s']; [repeat constructor; exact Hc|].
    destruct (is_space d).
    + constructor; [repeat constructor; exact Hc | exact IH].
    + destruct (split_ws (d :: s')) as [|w ws].
      * repeat constructor; exact Hc.
      * inversion IH; subst. constructor; [constructor|]; assumption.
Qed.

Lemma split_ws_tokens (s : pystr) :
  Forall is_token (split_ws s).
Proof.
  induction s as [|c s IH]; [constructor|].
  destruct (is_space c) eqn:E.
  - rewrite split_ws_space by exact E. exact IH.
  - assert (Hc : is_token [c]) by (split; [discriminate | repeat constructor; exact E]).
    rewrite split_ws_nonspace by exact E.
    destruct s as [|d s']; [constructor; [exact Hc | constructor]|].
    destruct (is_space d).
    + constructor; [exact Hc | exact IH].
    + destruct (split_ws (d :: s')) as [|w ws].
      * constructor; [exact Hc | constructor].
      * inversion IH as [|? ? [_ Hw] Hws]; subst. constructor; [|exact Hws].
        split; [discriminate | constructor; assumption].
Qed.

Lemma no_double_dot_single (c : N) : no_double_dot [c] = true.
Proof. simpl. rewrite andb_false_r. reflexivity. Qed.

Lemma split_ws_no_double_dot (s : pystr) :
  no_double_dot s = true ->
  Forall (fun w => no_double_dot w = true) (split_ws s).
Proof.
  induction s as [|c s IH]; intros Hs; [constructor|].
  simpl in Hs. apply andb_true_iff in Hs as [Hpair Hs]. specialize (IH Hs).
  destruct (is_space c) eqn:E.
  - rewrite split_ws_space by exact E. exact IH.
  - rewrite split_ws_nonspace by exact E.
    destruct s as [|d s'].
    { constructor; [apply no_double_dot_single | constructor]. }
    destruct (is_space d) eqn:Ed.
    + constructor; [apply no_double_dot_single | exact IH].
    + destruct (split_ws_head d s' Ed) as (w & ws & Hsplit).
      rewrite Hsplit in IH |- *.
      inversion IH as [|? ? Hw Hws]; subst. constructor; [|exact Hws].
      simpl. simpl in Hpair. rewrite Hpair. exact Hw.
Qed.

Lemma join_space_cons (w : pystr) (ws : list pystr) :
  ws <> [] -> join_space (w :: ws) = w ++ space :: join_space ws.
Proof. destruct ws; [congruence | reflexivity]. Qed.

Lemma join_space_Forall (P : N -> Prop) (ws : list pystr) :
  P space -> Forall (Forall P) ws -> Forall P (join_space ws).
Proof.
  intros Hsp. induction 1 as [|w ws Hw Hws IH]; [constructor|].
  destruct ws as [|w2 ws]; [exact Hw|].
  rewrite join_space_cons by discriminate.
  apply Forall_app. split; [exact Hw | constructor; assumption].
Qed.

Lemma no_double_dot_app_space (w r : pystr) :
  no_double_dot w = true -> no_double_dot r = true ->
  no_double_dot (w ++ space :: r) = true.
Proof.
  intros Hw Hr. induction w as [|c w IH]; simpl.
  - exact Hr.
  - simpl in Hw. apply andb_true_iff in Hw as [Hpair Hw].
    rewrite (IH Hw), andb_true_r.
    destruct w as [|d w]; simpl.
    + rewrite andb_false_r. reflexivity.
    + exact Hpair.
Qed.

Lemma join_space_no_double_dot (ws : list pystr) :
  Forall (fun w => no_double_dot w = true) ws ->
  no_double_dot (join_space ws) = true.
Proof.
  induction 1 as [|w ws Hw Hws IH]; [reflexivity|].
  destruct ws as [|w2 ws]; [exact Hw|].
  rewrite join_space_cons by discriminate.
  apply no_double_dot_app_space; assumption.
Qed.

Lemma split_ws_token_then (w rest : pystr) :
  is_token w ->
  split_ws (w ++ space :: rest) = w :: split_ws rest.
Proof.
  intros [Hne Hw]. induction Hw as [|c w Hc Hw IH]; [congruence|].
  simpl app. rewrite split_ws_nonspace by exact Hc.
  destruct w as [|d w].
  - simpl app. change (is_space space) with true. cbv iota.
    rewrite split_ws_space by reflexivity. reflexivity.
  - simpl app. inversion Hw as [|? ? Hd _]; subst. rewrite Hd.
    simpl app in IH. rewrite IH by discriminate. reflexivity.
Qed.

Lemma split_ws_token (w : pystr) :
  is_token w -> split_ws w = [w].
Proof.
  intros [Hne Hw]. induction Hw as [|c w Hc Hw IH]; [congruence|].
  rewrite split_ws_nonspace by exact Hc.
  destruct w as [|d w]; [reflexivity|].
  inversion Hw as [|? ? Hd _]; subst. rewrite Hd.
  rewrite IH by discriminate. reflexivity.
Qed.

Lemma split_ws_join_space (ws : list pystr) :
  Forall is_token ws -> split_ws (join_space ws) = ws.
Proof.
  induction 1 as [|w ws Hw Hws IH]; [reflexivity|].
  destruct ws as [|w2 ws]; [apply split_ws_token; exact Hw|].
  rewrite join_space_cons by discriminate.
  rewrite split_ws_token_then by exact Hw. rewrite IH. reflexivity.
Qed.

Lemma sub_token_length (m : N) (s : pystr) :
  forall inside, (length (sub_token L m inside s) <= length s)%nat.
Proof.
  induction s as [|c s IH]; intros inside; simpl; [lia|].
  destruct (inside && is_word L c).
  - specialize (IH true). lia.
  - destruct ((c =? m) && starts_with_word L s).
    + specialize (IH true). lia.
    + specialize (IH false). simpl. lia.
Qed.

Lemma sub_token_shrinks (m : N) (s : pystr) :
  has_token L m s = true ->
  forall inside, (length (sub_token L m inside s) < length s)%nat.
Proof.
  induction s as [|c s IH]; intros H inside; simpl in *; [discriminate|].
  destruct (inside && is_word L c).
  - pose proof (sub_token_length m s true). lia.
  - destruct ((c =? m) && starts_with_word L s).
    + pose proof (sub_token_length m s true). lia.
    + simpl in H. specialize (IH H false). simpl. lia.
Qed.

Lemma strip_emoji_length (s : pystr) :
  (length (strip_emoji s) <= length s)%nat.
Proof. apply filter_length_le. Qed.

Lemma sub_dots_length (s : pystr) :
  forall prev, (length (sub_dots prev s) <= length s)%nat.
Proof.
  induction s as [|c s IH]; intros prev; simpl; [lia|].
  destruct (is_dot c).
  - destruct (prev || starts_with_dot s).
    + specialize (IH true). lia.
    + specialize (IH true). simpl. lia.
  - specialize (IH false). simpl. lia.
Qed.

Lemma join_space_push (c : N) (w : pystr) (ws : list pystr) :
  join_space ((c :: w) :: ws) = c :: join_space (w :: ws).
Proof. destruct ws; reflexivity. Qed.

Lemma join_split_length (s : pystr) :
  (length (join_space (split_ws s)) + (if starts_with_space s then 1 else 0)
   <= length s)%nat.
Proof.
  induction s as [|c s IH]; [simpl; lia|].
  destruct (is_space c) eqn:E.
  - rewrite split_ws_space by exact E. simpl starts_with_space. rewrite E.
    simpl length. destruct (starts_with_space s); lia.
  - rewrite split_ws_nonspace by exact E. simpl starts_with_space. rewrite E.
    destruct s as [|d s']; [simpl; lia|].
    simpl starts_with_space in IH.
    destruct (is_space d) eqn:Ed.
    + destruct (split_ws (d :: s')) as [|w ws].
      * simpl. lia.
      * rewrite join_space_cons by discriminate.
        simpl length in *. lia.
    + destruct (split_ws_head d s' Ed) as (w & ws & Hsplit).
      rewrite Hsplit in IH |- *. rewrite join_space_push.
      simpl length in *. lia.
Qed.

Lemma join_split_length_le (s : pystr) :
  (length (join_space (split_ws s)) <= length s)%nat.
Proof.
  pose proof (join_split_length s). destruct (starts_with_space s); lia.
Qed.

Lemma strip_social_noise_shrinks (y : pystr) :
  has_token L hash y = true \/ has_token L at_sign y = true ->
  (length (strip_social_noise L y) < length y)%nat.
Proof.
  intros H. unfold strip_social_noise.
  set (y1 := sub_token L hash false y).
  set (y2 := sub_token L at_sign false y1).
  pose proof (join_split_length_le (sub_dots false (strip_emoji y2))) as H5.
  pose proof (sub_dots_length (strip_emoji y2) false) as H4.
  pose proof (strip_emoji_length y2) as H3.
  pose proof (sub_token_length at_sign y1 false) as H2. fold y2 in H2.
  pose proof (sub_token_length hash y false) as H1. fold y1 in H1.
  destruct (has_token L hash y) eqn:Eh.
  - pose proof (sub_token_shrinks hash y Eh false) as H1'. fold y1 in H1'. lia.
  - destruct H as [H|H]; [discriminate|].
    assert (Ey : y1 = y) by (apply sub_token_fixed; exact Eh).
    pose proof (sub_token_shrinks at_sign y H false) as H2'.
    subst y2. rewrite Ey in *. lia.
Qed.
(** C7, as the code has it. Cleaning a cleaned text changes nothing
    exactly when the cleaned text holds no hashtag or mention token, that
    is no [#] or [@] directly followed by a word character. (Such a token
    can be left by one pass: the characters the later steps take out may
    have stood between the marker and the word.) *)
Theorem strip_social_noise_fixed (x : pystr) :
  strip_social_noise L (strip_social_noise L x) = strip_social_noise L x
  <-> (has_token L hash (strip_social_noise L x) = false
       /\ has_token L at_sign (strip_social_noise L x) = false).
Proof.
  split.
  - intros Hfix.
    destruct (has_token L hash (strip_social_noise L x)) eqn:Eh;
      [|destruct (has_token L at_sign (strip_social_noise L x)) eqn:Ea];
      [| |split; reflexivity];
      exfalso;
      (assert (Hlt : (length (strip_social_noise L (strip_social_noise L x))
                      < length (strip_social_noise L x))%nat)
         by (apply strip_social_noise_shrinks; auto));
      rewrite Hfix in Hlt; lia.
  - intros [Hhash Hat].
    set (y := strip_social_noise L x) in *.
    unfold strip_social_noise at 1.
    rewrite (sub_token_fixed hash y Hhash), (sub_token_fixed at_sign y Hat).
    set (u := sub_dots false (strip_emoji
                 (sub_token L at_sign false (sub_token L hash false x)))).
    assert (Hy : y = join_space (split_ws u)) by reflexivity.
    assert (Hu1 : Forall (fun c => is_emoji c = false) u).
    { apply sub_dots_Forall, strip_emoji_clean. }
    assert (Hu2 : no_double_dot u = true) by apply sub_dots_no_double_dot.
    rewrite strip_emoji_fixed.
    2:{ rewrite Hy. apply join_space_Forall; [reflexivity|].
        apply split_ws_Forall, Hu1. }
    rewrite sub_dots_fixed.
    2:{ rewrite Hy.
        apply join_space_no_double_dot, split_ws_no_double_dot, Hu2. }
    2:{ discriminate. }
    rewrite Hy at 1. rewrite split_ws_join_space by apply split_ws_tokens.
    symmetry. exact Hy.
Qed.

End NormalizerProperties.

Lemma strip_social_noise_fixed_witness :
  strip_social_noise Sample.lib
    (strip_social_noise Sample.lib
       (py "Great day!  #fun @friend " ++ 128522 :: py " More text here... ok"))
  = strip_social_noise Sample.lib
      (py "Great day!  #fun @friend " ++ 128522 :: py " More text here... ok").
Proof.
  apply (proj2 (strip_social_noise_fixed Sample.lib _)).
  split; reflexivity.
Defined.

(** C7, as stated, fails: cleaning ["#..a"] takes the two periods out and
    leaves ["#a"], which a second pass removes as a hashtag. *)
Lemma strip_social_noise_not_idempotent :
  strip_social_noise Sample.lib (py "#..a") = py "#a"
  /\ strip_social_noise Sample.lib (py "#a") = []
  /\ strip_social_noise Sample.lib (strip_social_noise Sample.lib (py "#..a"))
     <> strip_social_noise Sample.lib (py "#..a").
Proof.
  split; [reflexivity|]. split; [reflexivity|].
  vm_compute. discriminate.
Qed.

(** * Further properties of content_extractor.py *)

(** ** What a call does to the world *)

Lemma keeps_ret {A : Type} (a : A) : keeps_world (ret a).
Proof. intros w. reflexivity. Qed.

Lemma keeps_lift {A : Type} (o : outcome A) : keeps_world (lift o).
Proof. intros w. reflexivity. Qed.

Lemma keeps_bind {A B : Type} (m : M A) (k : A -> M B) :
  keeps_world m -> (forall a, keeps_world (k a)) -> keeps_world (bind m k).
Proof.
  intros Hm Hk w. unfold bind. specialize (Hm w).
  destruct (m w) as [[a|e] w1]; simpl in Hm; subst w1.
  - apply Hk.
  - reflexivity.
Qed.

Ltac keeps :=
  repeat first
    [ apply keeps_ret
    | apply keeps_lift
    | apply keeps_bind; [|intros ?]
    | progress cbv zeta
    | match goal with
      | |- keeps_world (match ?x with _ => _ end) => destruct x
      | |- keeps_world (let '(_, _) := ?x in _) => destruct x
      end ].

(** The world behind a strategy that fetches the page and then only
    computes. *)
Lemma fetch_first {A : Type} (url : pystr) (k : option Soup -> M A)
    (w : World) :
  (forall soup, keeps_world (k soup)) ->
  after_requests w [url] (snd (bind (_make_request url) k w)).
Proof.
  intros Hk. unfold bind.
  destruct (fetch_then url w) as [E | (code & doc & body & _ & E)];
    rewrite E, Hk; repeat split.
Qed.

Lemma og_strategy_requests (platform failed default_title media : string)
    (url : pystr) (w : World) :
  after_requests w [url]
    (snd (og_strategy platform failed default_title media url w)).
Proof. apply fetch_first. intros soup. keeps. Qed.

Lemma youtube_requests (url : pystr) (w : World) :
  after_requests w [url] (snd (_extract_youtube url w)).
Proof. apply fetch_first. intros soup. keeps. Qed.

Lemma generic_requests (url : pystr) (w : World) :
  after_requests w [url] (snd (_extract_generic url w)).
Proof. apply fetch_first. intros soup. keeps. Qed.

Lemma instagram_requests (L : PyLib) (url : pystr) (w : World) :
  after_requests w [url] (snd (_extract_instagram L url w)).
Proof. apply fetch_first. intros soup. keeps. Qed.

Lemma bind_session_get {A : Type} (url : pystr) (k : HttpReply -> M A)
    (w : World) :
  bind (session_get url) k w
  = k (net w (length (requests w)) url)
      {| net := net w; requests := requests w ++ [url]; slept := slept w |}.
Proof. reflexivity. Qed.

Lemma twitter_requests (L : PyLib) (url : pystr) (w : World) :
  after_requests w [oembed_url L url] (snd (_extract_twitter L url w))
  \/ after_requests w [oembed_url L url; url] (snd (_extract_twitter L url w)).
Proof.
  unfold _extract_twitter. fold (oembed_url L url). cbv zeta.
  rewrite bind_session_get.
  match goal with
  | |- context [match ?o with Some d => ret d | None => _ end] =>
      destruct o as [d0|]
  end.
  - left. repeat split.
  - right.
    match goal with
    | |- after_requests _ _ (snd (bind (_make_request url) ?k ?w1)) =>
        assert (H : after_requests w1 [url] (snd (bind (_make_request url) k w1)))
    end.
    { apply fetch_first. intros soup. keeps. }
    destruct H as (H1 & H2 & H3). repeat split; try assumption.
    rewrite H3. simpl. rewrite <- app_assoc. reflexivity.
Qed.

(** ** Exceptions *)












(** ** Platform and URL of a result *)

Ltac tagged_failure := intros Hs; vm_compute in Hs; discriminate Hs.
Ltac tagged_success := intros _; split; reflexivity.

Lemma og_strategy_tagged (platform failed default_title media : string)
    (url : pystr) (w : World) (d : dict) (w' : World) :
  og_strategy platform failed default_title media url w = (Ret d, w') ->
  tagged platform url d.
Proof.
  intros H. unfold og_strategy, bind in H.
  destruct (fetch_then url w) as [E | (code & doc & body & _ & E)];
    rewrite E in H.
  - apply returned_result in H; subst d. intros Hs. discriminate Hs.
  - unfold lift, ret in H. read_contents H.
    apply returned_result in H; subst d. tagged_success.
Qed.

Lemma youtube_tagged (url : pystr) (w : World) (d : dict) (w' : World) :
  _extract_youtube url w = (Ret d, w') -> tagged "youtube" url d.
Proof.
  intros H. unfold _extract_youtube, bind in H.
  destruct (fetch_then url w) as [E | (code & doc & body & _ & E)];
    rewrite E in H.
  - apply returned_result in H; subst d. tagged_failure.
  - unfold lift, ret in H.
    destruct (youtube_video_id url); read_contents H; cbv beta iota in H;
      apply returned_result in H; subst d; tagged_success.
Qed.

Lemma generic_tagged (url : pystr) (w : World) (d : dict) (w' : World) :
  _extract_generic url w = (Ret d, w') -> tagged "blog" url d.
Proof.
  intros H. unfold _extract_generic, bind in H.
  destruct (fetch_then url w) as [E | (code & doc & body & _ & E)];
    rewrite E in H.
  - apply returned_result in H; subst d. tagged_failure.
  - unfold lift, ret in H.
    destruct (find (is_tag "title") doc);
      destruct (find_meta_name "description" doc);
      unfold obind in H; read_contents H; cbv beta iota in H;
      apply returned_result in H; subst d; tagged_success.
Qed.

(** Every result of the Twitter strategy is a success. *)
Lemma twitter_result (L : PyLib) (url : pystr) (w : World) (d : dict)
    (w' : World) :
  _extract_twitter L url w = (Ret d, w') ->
  d !! "success"%string = Some (PBool true)
  /\ d !! "platform"%string = Some (PStr (py "twitter"))
  /\ d !! "url"%string = Some (PStr url)
  /\ d !! "media_type"%string = Some (PStr (py "tweet")).
Proof.
  intros H. unfold _extract_twitter in H. cbv zeta in H.
  rewrite bind_session_get in H.
  match type of H with
  | context [match ?o with Some d => ret d | None => _ end] =>
      destruct o as [d0|] eqn:Eo
  end.
  - apply returned_result in H; subst d0.
    destruct (net w _ _) as [|code doc [data|]]; try discriminate Eo.
    destruct (code =? 200)%Z; [|discriminate Eo].
    destruct (oembed_result L url data) as [d1|] eqn:E1; [|discriminate Eo].
    injection Eo as <-. unfold oembed_result, obind in E1.
    destruct (py_get data (py "html") (PStr [])) as [h|]; [|discriminate E1].
    destruct (py_get data (py "author_name") (PStr [])) as [a|];
      [|discriminate E1].
    destruct h; try discriminate E1. injection E1 as <-.
    repeat split.
  - clear Eo. unfold bind in H.
    match type of H with
    | context [_make_request url ?w1] =>
        destruct (fetch_then url w1)
          as [E | (code & doc & body & _ & E)]; rewrite E in H
    end.
    + unfold lift, ret in H. apply returned_result in H; subst d.
      repeat split.
    + unfold lift in H.
      destruct (twitter_page L url doc) as [[d1|]|] eqn:Ep;
        [| |discriminate H].
      * apply returned_result in H; subst d1. unfold twitter_page in Ep.
        match type of Ep with
        | context [match ?p with (_, _) => _ end] =>
            destruct p as [cap au]
        end.
        destruct cap; [discriminate Ep|].
        unfold obind in Ep.
        destruct (find_meta_property "og:title" doc);
          [destruct (tag_item _ _); [|discriminate Ep]|];
          read_contents Ep; injection Ep as <-; repeat split.
      * apply returned_result in H; subst d. repeat split.
Qed.

Lemma apply_shared_data_cases (L : PyLib) (data fc : pyval) (result : dict) :
  apply_shared_data data fc result = (fc, result)
  \/ (exists fc', apply_shared_data data fc result
                  = (fc', dict_set result "caption" fc'))
  \/ (exists fc' a,
         apply_shared_data data fc result
         = (fc', dict_set (dict_set result "caption" fc') "author" a)).
Proof.
  unfold apply_shared_data.
  repeat match goal with
         | |- context [match ?x with _ => _ end] => destruct x
         end; eauto.
Qed.

Lemma instagram_tagged (L : PyLib) (url : pystr) (w : World) (d : dict)
    (w' : World) :
  _extract_instagram L url w = (Ret d, w') -> tagged "instagram" url d.
Proof.
  intros H. unfold _extract_instagram, bind in H.
  destruct (fetch_then url w) as [E | (code & doc & body & _ & E)];
    rewrite E in H.
  - apply returned_result in H; subst d. tagged_failure.
  - unfold lift, ret in H. cbv zeta in H. read_contents H.
    match type of H with
    | context [match ?p with (_, _) => _ end] =>
        assert (Hp : p = (PStr v, of_list
          [ item "success" (PBool true);
            item "platform" (PStr (py "instagram"));
            item "url" (PStr url);
            item "title" (PStr []);
            item "caption" (PStr v);
            item "image_url" (PStr v0);
            item "author" (PStr []);
            item "media_type" (PStr (py "post")) ])
          \/ (exists fc', p = (fc', dict_set (of_list
          [ item "success" (PBool true);
            item "platform" (PStr (py "instagram"));
            item "url" (PStr url);
            item "title" (PStr []);
            item "caption" (PStr v);
            item "image_url" (PStr v0);
            item "author" (PStr []);
            item "media_type" (PStr (py "post")) ]) "caption" fc'))
          \/ (exists fc' a, p = (fc', dict_set (dict_set (of_list
          [ item "success" (PBool true);
            item "platform" (PStr (py "instagram"));
            item "url" (PStr url);
            item "title" (PStr []);
            item "caption" (PStr v);
            item "image_url" (PStr v0);
            item "author" (PStr []);
            item "media_type" (PStr (py "post")) ]) "caption" fc') "author" a)));
        [|destruct Hp as [Hp | [(fc' & Hp) | (fc' & a & Hp)]]; rewrite Hp in H]
    end.
    { destruct (find_script "window" "_sharedData" doc) as [script|];
        [|left; reflexivity].
      destruct (shared_data L script) as [data|]; [|left; reflexivity].
      apply apply_shared_data_cases; exact L. }
    all: destruct (_clean_instagram_title L _) as [t|]; [|discriminate H];
      apply returned_result in H; subst d; tagged_success.
Qed.

(** A successful result of [extract] names the platform the classifier
    answered and echoes the URL. *)
Lemma extract_tagged (L : PyLib) (url : pystr) (w : World) (d : dict)
    (w' : World) :
  extract L url w = (Ret d, w') -> tagged (detect_platform L url) url d.
Proof.
  intros H. unfold extract in H.
  destruct (is_valid_url L url); simpl negb in H; cbv iota in H.
  2:{ apply returned_result in H; subst d. tagged_failure. }
  pose proof (detect_platform_tag L url) as Htag.
  unfold platform_tags in Htag. simpl in Htag.
  destruct Htag as [E|[E|[E|[E|[E|[E|[E|[E|[E|[]]]]]]]]]];
    rewrite <- E in H |- *; simpl in H.
  - exact (instagram_tagged L url w d w' H).
  - intros _. destruct (twitter_result L url w d w' H) as (_ & Hp & Hu & _).
    split; assumption.
  - exact (og_strategy_tagged _ _ _ _ url w d w' H).
  - exact (youtube_tagged url w d w' H).
  - exact (og_strategy_tagged _ _ _ _ url w d w' H).
  - exact (og_strategy_tagged _ _ _ _ url w d w' H).
  - exact (og_strategy_tagged _ _ _ _ url w d w' H).
  - exact (og_strategy_tagged _ _ _ _ url w d w' H).
  - exact (generic_tagged url w d w' H).
Qed.

(** ** The clock of the retry loop *)

(** What [extract] does to the world, by platform. *)
Lemma extract_world_cases (L : PyLib) (url : pystr) (w : World) :
  (is_valid_url L url = false /\ snd (extract L url w) = w)
  \/ (is_valid_url L url = true
      /\ detect_platform L url <> "twitter"%string
      /\ after_requests w [url] (snd (extract L url w)))
  \/ (is_valid_url L url = true
      /\ detect_platform L url = "twitter"%string
      /\ (after_requests w [oembed_url L url] (snd (extract L url w))
          \/ after_requests w [oembed_url L url; url]
               (snd (extract L url w)))).
Proof.
  unfold extract.
  destruct (is_valid_url L url); simpl negb; cbv iota;
    [right | left; split; reflexivity].
  pose proof (detect_platform_tag L url) as Htag.
  unfold platform_tags in Htag. simpl in Htag.
  destruct Htag as [E|[E|[E|[E|[E|[E|[E|[E|[E|[]]]]]]]]]];
    rewrite <- E; simpl;
    try (left; split; [reflexivity|]; split; [discriminate|]).
  - apply instagram_requests.
  - right. split; [reflexivity|]. split; [reflexivity|].
    apply twitter_requests.
  - apply og_strategy_requests.
  - apply youtube_requests.
  - apply og_strategy_requests.
  - apply og_strategy_requests.
  - apply og_strategy_requests.
  - apply og_strategy_requests.
  - apply generic_requests.
Qed.

Lemma extract_slept (L : PyLib) (url : pystr) (w : World) :
  slept (snd (extract L url w)) = slept w.
Proof.
  destruct (extract_world_cases L url w)
    as [(_ & ->) | [(_ & _ & H) | (_ & _ & [H|H])]];
    [reflexivity | apply H..].
Qed.

Section RetryClock.

Context {S : Type}.
Context (dispatcher : pystr -> S -> outcome dict * S).
Context (sleep : S -> S).
Context (url : pystr) (max_retries : Z).
Context (clock : S -> nat).
Context (Hcall : forall s, clock (snd (dispatcher url s)) = clock s).
Context (Hsleep : forall s, clock (sleep s) = Datatypes.S (clock s)).

(** The clock after a run of the loop: one tick between two calls. *)
Lemma retry_loop_clock (n : nat) :
  forall (attempt : Z) (last : option dict) (s : S)
         (log : list (outcome dict)),
    attempt = (max_retries - Z.of_nat n)%Z ->
    let run := retry_loop (logged dispatcher) (sleep_logged sleep)
                 url max_retries n attempt last (s, log) in
    exists k,
      length (snd (snd run)) = (length log + k)%nat
      /\ (k <= n)%nat
      /\ (1 <= n -> 1 <= k)%nat
      /\ clock (fst (snd run)) = (clock s + (k - 1))%nat.
Proof.
  induction n as [|n IH]; intros attempt last s log Hattempt; cbv zeta.
  - simpl. exists 0%nat. destruct last; simpl; repeat split; lia.
  - cbn [retry_loop]. rewrite logged_pair.
    pose proof (Hcall s) as Hc.
    destruct (dispatcher url s) as [[result|e] s1]; cbn [fst snd] in *.
    + destruct (truthy (dict_get result "success")); cbn [fst snd].
      * exists 1%nat. rewrite length_app. simpl. repeat split; lia.
      * rewrite sleep_logged_if.
        specialize (IH (attempt + 1)%Z (Some result)
                      (if (attempt <? max_retries - 1)%Z then sleep s1 else s1)
                      (log ++ [Ret result])).
        cbv zeta in IH. destruct IH as (k & Hlen & Hle & Hpos & Hclock);
          [lia|].
        exists (Datatypes.S k). rewrite Hlen, Hclock, length_app. simpl.
        repeat split; try lia.
        destruct (Z.ltb_spec attempt (max_retries - 1)).
        -- rewrite Hsleep. lia.
        -- lia.
    + exists 1%nat. rewrite length_app. simpl. repeat split; lia.
Qed.

End RetryClock.

(** The first attempt decides when it does not fail. *)
Lemma retry_with_first {S : Type}
    (dispatcher : pystr -> S -> outcome dict * S) (sleep : S -> S)
    (url : pystr) (max_retries : Z) (s : S) :
  (1 <= max_retries)%Z ->
  ~ is_failure (fst (dispatcher url s)) ->
  retry_with dispatcher sleep url max_retries s = dispatcher url s.
Proof.
  intros Hpos Hok. unfold retry_with.
  destruct (Z.to_nat max_retries) as [|n] eqn:En; [lia|].
  cbn [retry_loop].
  destruct (dispatcher url s) as [[result|e] s1]; [|reflexivity].
  destruct (truthy (dict_get result "success")) eqn:Hs; [reflexivity|].
  exfalso. apply Hok. exists result. auto.
Qed.

(** The loop on a URL that is not valid. *)
Lemma retry_loop_invalid (L : PyLib) (url : pystr) (max_retries : Z)
    (n : nat) :
  is_valid_url L url = false ->
  forall (attempt : Z) (last : option dict) (w : World),
    attempt = (max_retries - Z.of_nat n)%Z ->
    retry_loop (extract L) sleep1 url max_retries n attempt last w
    = (match n with
       | O => unbound_or last
       | _ => Ret (failure "Invalid URL format")
       end,
       {| net := net w; requests := requests w;
          slept := slept w + (n - 1) |}).
Proof.
  intros Hinvalid. induction n as [|n IH]; intros attempt last w Hattempt.
  - simpl. destruct w, last; simpl; rewrite Nat.add_0_r; reflexivity.
  - cbn [retry_loop]. rewrite (extract_invalid L url w Hinvalid).
    change (truthy (dict_get (failure "Invalid URL format") "success"))
      with false. cbv iota.
    rewrite IH by lia.
    destruct (Z.ltb_spec attempt (max_retries - 1)); destruct n as [|n];
      try lia; simpl; f_equal; f_equal; lia.
Qed.

(** ** [extract] and [extract_with_retry] *)



(** X2. A successful result of [extract] carries under [platform] the
    tag [detect_platform] answers for the URL, and under [url] the URL it
    was given. *)
Theorem extract_names_platform (L : PyLib) (url : pystr) (w : World)
    (result : dict) (w' : World) :
  extract L url w = (Ret result, w') ->
  result !! "success"%string = Some (PBool true) ->
  result !! "platform"%string = Some (PStr (py (detect_platform L url)))
  /\ result !! "url"%string = Some (PStr url).
Proof.
  intros H Hs. exact (extract_tagged L url w result w' H Hs).
Qed.

Lemma extract_names_platform_witness :
  exists result w',
    extract Sample.lib (py "https://youtu.be/abc123")
      (Sample.page [Sample.meta "og:title" "Demo Video"]) = (Ret result, w')
    /\ result !! "platform"%string = Some (PStr (py "youtube"))
    /\ result !! "url"%string = Some (PStr (py "https://youtu.be/abc123")).
Proof.
  destruct (extract Sample.lib (py "https://youtu.be/abc123")
              (Sample.page [Sample.meta "og:title" "Demo Video"]))
    as [[result|e] w'] eqn:E; [|vm_compute in E; discriminate E].
  exists result, w'. split; [reflexivity|].
  apply (extract_names_platform Sample.lib (py "https://youtu.be/abc123")
           (Sample.page [Sample.meta "og:title" "Demo Video"]) result w' E).
  vm_compute in E. injection E as <- _. reflexivity.
Defined.



(** X4. The Twitter strategy never reports a failure: whatever the remote
    side answers, a result it returns is a success. So for a valid URL
    classified as twitter the retry wrapper, given at least one attempt,
    stops after the first call: it is [extract] itself, with no sleep and
    no second attempt. *)
Theorem twitter_never_retried (L : PyLib) (url : pystr) (max_retries : Z)
    (w : World) :
  is_valid_url L url = true ->
  detect_platform L url = "twitter"%string ->
  (forall result w',
      extract L url w = (Ret result, w') ->
      result !! "success"%string = Some (PBool true))
  /\ ((1 <= max_retries)%Z ->
      extract_with_retry L url max_retries w = extract L url w).
Proof.
  intros Hvalid Hplatform.
  assert (Hsucc : forall result w',
             extract L url w = (Ret result, w') ->
             result !! "success"%string = Some (PBool true)).
  { intros result w' H. rewrite (extract_valid L url w Hvalid), Hplatform in H.
    simpl in H. apply (twitter_result L url w result w' H). }
  split; [exact Hsucc|].
  intros Hpos. unfold extract_with_retry. apply retry_with_first; [exact Hpos|].
  intros (result & Hr & Hf).
  destruct (extract L url w) as [o w1] eqn:E. simpl in Hr. subst o.
  specialize (Hsucc result w1 eq_refl).
  unfold dict_get in Hf. rewrite Hsucc in Hf. discriminate Hf.
Qed.

Lemma twitter_never_retried_witness :
  extract_with_retry Sample.lib (py "https://x.com/jack/status/20") 3
    Sample.offline
  = extract Sample.lib (py "https://x.com/jack/status/20") Sample.offline.
Proof.
  apply (twitter_never_retried Sample.lib (py "https://x.com/jack/status/20")
           3 Sample.offline eq_refl eq_refl).
  lia.
Defined.

(** X5. [extract_with_retry] sleeps one second between two consecutive
    calls of [extract] and at no other time: the seconds slept are the
    number of calls made less one (none when no call is made). *)
Theorem retry_sleeps_between_attempts (L : PyLib) (url : pystr)
    (max_retries : Z) (w : World) :
  slept (snd (extract_with_retry L url max_retries w))
  = (slept w
     + (length (retry_calls (extract L) sleep1 url max_retries w) - 1))%nat.
Proof.
  unfold extract_with_retry, retry_calls, retry_with.
  destruct (retry_loop_run (extract L) sleep1 url max_retries
              (Z.to_nat max_retries) 0%Z None w []) as (_ & E2 & _).
  cbv zeta in E2. rewrite <- E2.
  destruct (Z.leb_spec max_retries 0) as [Hle|Hgt].
  - replace (Z.to_nat max_retries) with 0%nat by lia. simpl. lia.
  - destruct (retry_loop_clock (extract L) sleep1 url max_retries slept
                (extract_slept L url) (fun s => eq_refl)
                (Z.to_nat max_retries) 0%Z None w [])
      as (k & Hlen & _ & _ & Hclock); [lia|].
    cbv zeta in Hlen, Hclock. rewrite Hclock, Hlen. simpl. reflexivity.
Qed.

(** X6. With at least one attempt allowed, a first call that does not
    report a failure (a success, or an exception) decides the run: the
    wrapper ends exactly as that call did, in result and in state, without
    sleeping. *)
Theorem retry_first_attempt_decides {S : Type}
    (dispatcher : pystr -> S -> outcome dict * S) (sleep : S -> S)
    (url : pystr) (max_retries : Z) (s : S) :
  (1 <= max_retries)%Z ->
  ~ is_failure (fst (dispatcher url s)) ->
  retry_with dispatcher sleep url max_retries s = dispatcher url s.
Proof. apply retry_with_first. Qed.

Lemma retry_first_attempt_decides_witness :
  extract_with_retry Sample.lib (py "https://www.youtube.com/watch?v=abc123")
    3 (Sample.page [Sample.meta "og:title" "Demo Video"])
  = extract Sample.lib (py "https://www.youtube.com/watch?v=abc123")
      (Sample.page [Sample.meta "og:title" "Demo Video"]).
Proof.
  apply (retry_first_attempt_decides (extract Sample.lib) sleep1
           (py "https://www.youtube.com/watch?v=abc123") 3
           (Sample.page [Sample.meta "og:title" "Demo Video"])); [lia|].
  intros (result & Hr & Hf). vm_compute in Hr. injection Hr as <-.
  vm_compute in Hf. discriminate Hf.
Defined.

(** X7. A URL that is not valid is retried all the same: with
    [max_retries] of at least 1 the wrapper returns the failure "Invalid
    URL format" after sleeping [max_retries - 1] seconds, and sends no
    request. *)
Theorem retry_invalid_url (L : PyLib) (url : pystr) (max_retries : Z)
    (w : World) :
  is_valid_url L url = false ->
  (1 <= max_retries)%Z ->
  extract_with_retry L url max_retries w
  = (Ret (failure "Invalid URL format"),
     {| net := net w; requests := requests w;
        slept := slept w + (Z.to_nat max_retries - 1) |}).
Proof.
  intros Hinvalid Hpos. unfold extract_with_retry, retry_with.
  rewrite (retry_loop_invalid L url max_retries (Z.to_nat max_retries)
             Hinvalid 0%Z None w) by lia.
  destruct (Z.to_nat max_retries) eqn:E; [lia | reflexivity].
Qed.

Lemma retry_invalid_url_witness :
  extract_with_retry Sample.lib (py "not a url") 3 Sample.offline
  = (Ret (failure "Invalid URL format"),
     {| net := net Sample.offline; requests := []; slept := 2 |}).
Proof.
  apply (retry_invalid_url Sample.lib (py "not a url") 3 Sample.offline);
    [reflexivity | lia].
Defined.

(** ** The Twitter strategy *)

Lemma make_request_failed (url : pystr) (w : World) :
  fetch_failed (net w (length (requests w)) url) ->
  _make_request url w = (Ret None, sent w url).
Proof.
  intros H. unfold _make_request. rewrite bind_session_get.
  destruct (net w (length (requests w)) url) as [|code doc body];
    [reflexivity|].
  simpl in H. rewrite H. reflexivity.
Qed.

Lemma make_request_fetched (url : pystr) (w : World) (doc : Soup) :
  fetched w url doc ->
  _make_request url w = (Ret (Some doc), sent w url).
Proof.
  intros (code & body & Hnet & Hcode).
  exact (make_request_page url w code doc body Hnet Hcode).
Qed.

(** The Twitter strategy once the oEmbed request gave nothing. *)
Lemma twitter_after_oembed (L : PyLib) (url : pystr) (w : World) :
  oembed_unusable (net w (length (requests w)) (oembed_url L url)) ->
  _extract_twitter L url w
  = bind (_make_request url)
      (fun soup =>
         bind (lift (match soup with
                     | Some soup => twitter_page L url soup
                     | None => Ret None
                     end))
           (fun page => match page with
                        | Some d => ret d
                        | None => ret (twitter_fallback url)
                        end))
      (sent w (oembed_url L url)).
Proof.
  intros H. unfold _extract_twitter. fold (oembed_url L url). cbv zeta.
  rewrite bind_session_get.
  destruct (net w (length (requests w)) (oembed_url L url))
    as [|code doc body]; [reflexivity|].
  simpl in H. destruct body as [data|]; [|reflexivity].
  destruct H as [H|H]; [|discriminate H].
  destruct (Z.eqb_spec code 200); [contradiction | reflexivity].
Qed.

(** X8. When the oEmbed request gives nothing to read and the page
    request fails, or the page that comes back has no description and no
    state script, the Twitter strategy answers with its fallback, after
    exactly two requests: a success whose author is what the URL shows
    behind [twitter.com/] and whose image is empty. *)
Theorem twitter_total_failure (L : PyLib) (url : pystr) (w : World) :
  oembed_unusable (net w (length (requests w)) (oembed_url L url)) ->
  fetch_failed (net w (Datatypes.S (length (requests w))) url)
  \/ (exists doc,
         fetched (sent w (oembed_url L url)) url doc
         /\ find_meta_property "og:description" doc = None
         /\ find_meta_name "description" doc = None
         /\ find_script "window" "__INITIAL_STATE__" doc = None) ->
  _extract_twitter L url w
  = (Ret (twitter_fallback url), sent (sent w (oembed_url L url)) url)
  /\ twitter_fallback url !! "success"%string = Some (PBool true)
  /\ twitter_fallback url !! "author"%string = Some (PStr (url_author url))
  /\ twitter_fallback url !! "image_url"%string = Some (PStr []).
Proof.
  intros Ho Hp. split; [|repeat split].
  rewrite (twitter_after_oembed L url w Ho). unfold bind.
  destruct Hp as [Hf | (doc & Hdoc & H1 & H2 & H3)].
  - rewrite make_request_failed; [reflexivity|].
    simpl. rewrite length_app, Nat.add_1_r. exact Hf.
  - rewrite (make_request_fetched url _ doc Hdoc).
    unfold lift, twitter_page. rewrite H1, H2, H3. reflexivity.
Qed.

Lemma twitter_total_failure_witness :
  _extract_twitter Sample.lib (py "https://twitter.com/jack/status/20")
    Sample.offline
  = (Ret (twitter_fallback (py "https://twitter.com/jack/status/20")),
     sent (sent Sample.offline
             (oembed_url Sample.lib (py "https://twitter.com/jack/status/20")))
       (py "https://twitter.com/jack/status/20")).
Proof.
  apply (twitter_total_failure Sample.lib
           (py "https://twitter.com/jack/status/20") Sample.offline).
  - exact I.
  - left. exact I.
Defined.

Lemma span_not_app (stop : N) (g rest : pystr) :
  Forall (fun c => c <> stop) g ->
  starts_with [stop] rest = true \/ rest = [] ->
  span_not stop (g ++ rest) = (g, rest).
Proof.
  intros Hg Hrest. induction Hg as [|c g Hc _ IH]; simpl.
  - destruct Hrest as [H | ->]; [|reflexivity].
    destruct rest as [|x rest]; [discriminate H|].
    unfold starts_with in H. simpl in H.
    destruct (N.eqb_spec stop x) as [<-|]; [|discriminate H].
    simpl. rewrite N.eqb_refl. reflexivity.
  - destruct (N.eqb_spec c stop); [contradiction|]. rewrite IH. reflexivity.
Qed.

Lemma search_group_skip (prefix : pystr) (stop : N) (closed : bool) (c : N)
    (s : pystr) :
  strip_prefix prefix (c :: s) = None ->
  search_group prefix stop closed (c :: s)
  = search_group prefix stop closed s.
Proof. intros H. simpl. rewrite H. reflexivity. Qed.

Lemma search_group_here (prefix : pystr) (stop : N) (s rest g r : pystr) :
  strip_prefix prefix s = Some rest ->
  span_not stop rest = (g, r) ->
  g <> [] ->
  search_group prefix stop false s = Some g.
Proof.
  intros Hp Hs Hg. destruct s as [|c s]; simpl; rewrite Hp, Hs;
    destruct g; congruence.
Qed.

(** X9. For a post addressed as [https://twitter.com/<handle>] or
    [https://twitter.com/<handle>/...], with a handle that is not empty,
    the fallback of the Twitter strategy names the handle: author
    [<handle>] and title [Tweet by <handle>]. *)
Theorem twitter_fallback_handle (handle rest : pystr) :
  handle <> [] ->
  Forall (fun c => c <> 47) handle ->
  starts_with [47] rest = true \/ rest = [] ->
  let url := py "https://twitter.com/" ++ handle ++ rest in
  url_author url = handle
  /\ twitter_fallback url !! "author"%string = Some (PStr handle)
  /\ twitter_fallback url !! "title"%string
     = Some (PStr (py "Tweet by " ++ handle)).
Proof.
  intros Hne Hh Hrest url.
  assert (Ha : url_author url = handle).
  { unfold url_author, url.
    change (py "https://twitter.com/" ++ handle ++ rest)
      with (py "https://" ++ py "twitter.com/" ++ handle ++ rest).
    cbn [py List.map list_ascii_of_string app N_of_ascii].
    repeat (rewrite search_group_skip by reflexivity).
    erewrite search_group_here;
      [reflexivity | reflexivity | apply span_not_app; assumption | exact Hne]. }
  split; [exact Ha|].
  unfold twitter_fallback. rewrite Ha.
  destruct handle; [congruence|]. split; reflexivity.
Qed.

Lemma twitter_fallback_handle_witness :
  url_author (py "https://twitter.com/" ++ py "jack" ++ py "/status/20")
  = py "jack".
Proof.
  apply (twitter_fallback_handle (py "jack") (py "/status/20")).
  - discriminate.
  - repeat constructor; discriminate.
  - left. reflexivity.
Defined.

(** X10. When the oEmbed request is answered with status 200 and a JSON
    object whose [html] is a string, the tweet is built from that answer
    alone: one request is sent, the page itself is not fetched, the
    caption is the cleaned [html], and the author is the value of
    [author_name] as it came, [''] when there is none. *)
Theorem twitter_oembed_only (L : PyLib) (url : pystr) (w : World)
    (doc : Soup) (kvs : list (pystr * pyval)) (html : pystr) :
  net w (length (requests w)) (oembed_url L url)
  = Response 200 doc (Some (PDict kvs)) ->
  assoc (py "html") kvs = Some (PStr html) ->
  exists result,
    _extract_twitter L url w = (Ret result, sent w (oembed_url L url))
    /\ result !! "success"%string = Some (PBool true)
    /\ result !! "caption"%string
       = Some (PStr (py_strip (sub_attribution L
                       (html_unescape L (py_strip (strip_tags false html))))))
    /\ result !! "author"%string
       = Some (match assoc (py "author_name") kvs with
               | Some a => a
               | None => PStr []
               end)
    /\ result !! "image_url"%string = Some (PStr []).
Proof.
  intros Hnet Hhtml. unfold _extract_twitter. fold (oembed_url L url).
  cbv zeta. rewrite bind_session_get, Hnet.
  change (200 =? 200)%Z with true. cbv iota.
  unfold oembed_result, py_get. rewrite Hhtml. cbn [obind].
  eexists. split; [reflexivity|]. repeat split.
Qed.

Lemma twitter_oembed_only_witness :
  exists result,
    _extract_twitter Sample.lib (py "https://twitter.com/jane/status/7")
      (Sample.always (Response 200 []
         (Some (PDict [(py "html", PStr (py "<p>Hello world</p>"));
                       (py "author_name", PStr (py "Jane"))]))))
    = (Ret result,
       sent (Sample.always (Response 200 []
               (Some (PDict [(py "html", PStr (py "<p>Hello world</p>"));
                             (py "author_name", PStr (py "Jane"))]))))
         (oembed_url Sample.lib (py "https://twitter.com/jane/status/7")))
    /\ result !! "caption"%string = Some (PStr (py "Hello world"))
    /\ result !! "author"%string = Some (PStr (py "Jane")).
Proof.
  destruct (twitter_oembed_only Sample.lib
              (py "https://twitter.com/jane/status/7")
              (Sample.always (Response 200 []
                 (Some (PDict [(py "html", PStr (py "<p>Hello world</p>"));
                               (py "author_name", PStr (py "Jane"))]))))
              [] [(py "html", PStr (py "<p>Hello world</p>"));
                  (py "author_name", PStr (py "Jane"))]
              (py "<p>Hello world</p>") eq_refl eq_refl)
    as (result & Hrun & _ & Hcaption & Hauthor & _).
  exists result. split; [exact Hrun|]. split; [exact Hcaption | exact Hauthor].
Defined.

(** ** Titles *)

(** *** The cleaned text and the title *)

Lemma drop_space_keeps_nonspace (l : pystr) (c : N) :
  is_space c = false -> drop_space (l ++ [c]) <> [].
Proof.
  intros Hc. induction l as [|x l IH]; simpl.
  - rewrite Hc. discriminate.
  - destruct (is_space x); [exact IH | discriminate].
Qed.

Lemma py_strip_nonempty (c : N) (s : pystr) :
  is_space c = false -> py_strip (c :: s) <> [].
Proof.
  intros Hc. unfold py_strip. simpl drop_space. rewrite Hc.
  simpl rev. intros H.
  apply (f_equal (@rev N)) in H. rewrite rev_involutive in H. simpl in H.
  exact (drop_space_keeps_nonspace (rev s) c Hc H).
Qed.

Lemma join_space_head (ws : list pystr) :
  Forall is_token ws ->
  match join_space ws with
  | [] => ws = []
  | c :: _ => is_space c = false
  end.
Proof.
  intros H. destruct H as [|w ws [Hne Hw] Hws]; [reflexivity|].
  destruct w as [|c w]; [congruence|].
  rewrite join_space_push. inversion Hw; assumption.
Qed.

(** The cleaned text is empty or starts with a character that is not
    whitespace. *)
Lemma strip_social_noise_head (L : PyLib) (x : pystr) :
  match strip_social_noise L x with
  | [] => True
  | c :: _ => is_space c = false
  end.
Proof.
  unfold strip_social_noise.
  pose proof (join_space_head _ (split_ws_tokens
    (sub_dots false (strip_emoji (sub_token L at_sign false
       (sub_token L hash false x)))))) as H.
  destruct (join_space _); [exact I | exact H].
Qed.

Lemma clean_title_shape (L : PyLib) (caption : pystr) :
  exists title,
    _clean_instagram_title L (PStr caption) = Ret title
    /\ title <> []
    /\ (length title <= 61)%nat.
Proof.
  unfold _clean_instagram_title.
  destruct (negb (truthy (PStr caption))).
  { eexists; split; [reflexivity | split; [discriminate | simpl; lia]]. }
  pose proof (strip_social_noise_head L caption) as Hhead.
  set (text := strip_social_noise L caption) in *.
  destruct (existsb is_dot text && (length (before_char dot text) <=? 60)%nat)
    eqn:E.
  - eexists; split; [reflexivity|]. split.
    + intros H. apply app_eq_nil in H as [_ H]. discriminate H.
    + apply andb_true_iff in E as [_ E]. apply Nat.leb_le in E.
      rewrite length_app.
      pose proof (py_strip_length (before_char dot text)). simpl. lia.
  - destruct text as [|c text'].
    + eexists; split; [reflexivity | split; [discriminate | simpl; lia]].
    + eexists; split; [reflexivity|]. split.
      * change (firstn 60 (c :: text')) with (c :: firstn 59 text').
        apply py_strip_nonempty. exact Hhead.
      * pose proof (py_strip_length (firstn 60 (c :: text'))) as H.
        rewrite length_firstn in H. lia.
Qed.

(** X11. [_clean_instagram_title] never hands back an empty title: on a
    string it returns between 1 and 61 characters; on [None] and the other
    falsy values the default label; and on any other object that is not a
    string it raises TypeError. *)
Theorem clean_title_never_empty (L : PyLib) (caption : pyval) :
  (forall s, caption = PStr s ->
     exists title, _clean_instagram_title L caption = Ret title
                   /\ (1 <= length title <= 61)%nat)
  /\ (truthy caption = false ->
      _clean_instagram_title L caption = Ret (py "Instagram Post"))
  /\ (truthy caption = true -> (forall s, caption <> PStr s) ->
      _clean_instagram_title L caption = Raise TypeError).
Proof.
  split; [|split].
  - intros s ->. destruct (clean_title_shape L s) as (t & Ht & Hne & Hlen).
    exists t. split; [exact Ht|]. destruct t; [congruence | simpl in *; lia].
  - intros H. unfold _clean_instagram_title. rewrite H. reflexivity.
  - intros H Hns. unfold _clean_instagram_title. rewrite H. simpl.
    destruct caption; try reflexivity. exfalso. exact (Hns s eq_refl).
Qed.

Lemma clean_title_never_empty_witness :
  (exists title,
      _clean_instagram_title Sample.lib (PStr (py "   #tag   ")) = Ret title
      /\ (1 <= length title <= 61)%nat)
  /\ _clean_instagram_title Sample.lib PNone = Ret (py "Instagram Post")
  /\ _clean_instagram_title Sample.lib (PNum 5) = Raise TypeError.
Proof.
  pose proof (clean_title_never_empty Sample.lib (PStr (py "   #tag   ")))
    as (H1 & _).
  pose proof (clean_title_never_empty Sample.lib PNone) as (_ & H2 & _).
  pose proof (clean_title_never_empty Sample.lib (PNum 5)) as (_ & _ & H3).
  split; [apply (H1 _ eq_refl)|].
  split; [apply H2; reflexivity|].
  apply H3; [reflexivity | discriminate].
Defined.

(** X12. The text [strip_social_noise] returns is made of words joined by
    single spaces (no other whitespace, none at either end), holds no
    character of the emoji ranges and no two periods in a row, and is not
    longer than the text it was given. *)
Theorem strip_social_noise_shape (L : PyLib) (x : pystr) :
  (exists words,
      Forall is_token words
      /\ strip_social_noise L x = join_space words)
  /\ Forall (fun c => is_emoji c = false) (strip_social_noise L x)
  /\ no_double_dot (strip_social_noise L x) = true
  /\ (length (strip_social_noise L x) <= length x)%nat.
Proof.
  unfold strip_social_noise.
  set (y1 := sub_token L hash false x).
  set (y2 := sub_token L at_sign false y1).
  set (u := sub_dots false (strip_emoji y2)).
  split; [|split; [|split]].
  - exists (split_ws u). split; [apply split_ws_tokens | reflexivity].
  - apply join_space_Forall; [reflexivity|].
    apply split_ws_Forall, sub_dots_Forall, strip_emoji_clean.
  - apply join_space_no_double_dot, split_ws_no_double_dot,
      sub_dots_no_double_dot.
  - pose proof (join_split_length_le u).
    pose proof (sub_dots_length (strip_emoji y2) false).
    pose proof (strip_emoji_length y2).
    pose proof (sub_token_length L at_sign y1 false).
    pose proof (sub_token_length L hash x false).
    unfold u, y2, y1 in *. lia.
Qed.

(** ** The other strategies *)

(** X13. On an Instagram page without a shared-data blob that parses, the
    caption of the result is the [og:description] text exactly as the
    page has it, and the title is derived from that caption alone, 1 to
    61 characters long; [og:title] plays no part. *)
Theorem instagram_title_from_caption (L : PyLib) (url : pystr) (w : World)
    (doc : Soup) (caption image : pystr) :
  fetched w url doc ->
  content_or (find_meta_property "og:description" doc) [] = Ret caption ->
  content_or (find_meta_property "og:image" doc) [] = Ret image ->
  (forall script,
      find_script "window" "_sharedData" doc = Some script ->
      shared_data L script = None) ->
  exists title result,
    _clean_instagram_title L (PStr caption) = Ret title
    /\ (1 <= length title <= 61)%nat
    /\ _extract_instagram L url w = (Ret result, sent w url)
    /\ result !! "success"%string = Some (PBool true)
    /\ result !! "caption"%string = Some (PStr caption)
    /\ result !! "title"%string = Some (PStr title).
Proof.
  intros Hdoc Hc Hi Hblob.
  destruct (clean_title_shape L caption) as (title & Ht & Hne & Hlen).
  exists title. eexists. split; [exact Ht|].
  split; [destruct title; [congruence | simpl in *; lia]|].
  unfold _extract_instagram, bind.
  rewrite (make_request_fetched url w doc Hdoc).
  unfold lift. rewrite Hc, Hi. cbv zeta.
  assert (E : match find_script "window" "_sharedData" doc with
              | Some script =>
                  match shared_data L script with
                  | Some data =>
                      apply_shared_data data (PStr caption)
                        (of_list
                           [ item "success" (PBool true);
                             item "platform" (PStr (py "instagram"));
                             item "url" (PStr url);
                             item "title" (PStr []);
                             item "caption" (PStr caption);
                             item "image_url" (PStr image);
                             item "author" (PStr []);
                             item "media_type" (PStr (py "post")) ])
                  | None => (PStr caption, of_list
                           [ item "success" (PBool true);
                             item "platform" (PStr (py "instagram"));
                             item "url" (PStr url);
                             item "title" (PStr []);
                             item "caption" (PStr caption);
                             item "image_url" (PStr image);
                             item "author" (PStr []);
                             item "media_type" (PStr (py "post")) ])
                  end
              | None => (PStr caption, of_list
                           [ item "success" (PBool true);
                             item "platform" (PStr (py "instagram"));
                             item "url" (PStr url);
                             item "title" (PStr []);
                             item "caption" (PStr caption);
                             item "image_url" (PStr image);
                             item "author" (PStr []);
                             item "media_type" (PStr (py "post")) ])
              end
              = (PStr caption, of_list
                           [ item "success" (PBool true);
                             item "platform" (PStr (py "instagram"));
                             item "url" (PStr url);
                             item "title" (PStr []);
                             item "caption" (PStr caption);
                             item "image_url" (PStr image);
                             item "author" (PStr []);
                             item "media_type" (PStr (py "post")) ])).
  { destruct (find_script "window" "_sharedData" doc) as [script|] eqn:Es;
      [|reflexivity].
    rewrite (Hblob script eq_refl). reflexivity. }
  rewrite E, Ht. split; [reflexivity|]. repeat split.
Qed.

Lemma instagram_title_from_caption_witness :
  exists title result,
    _clean_instagram_title Sample.lib
      (PStr (py "Great day! #fun @friend More text here.")) = Ret title
    /\ (1 <= length title <= 61)%nat
    /\ _extract_instagram Sample.lib (py "https://www.instagram.com/p/Cabc/")
         (Sample.page [Sample.meta "og:description"
                         "Great day! #fun @friend More text here.";
                       Sample.bare_meta "og:title"])
       = (Ret result,
          sent (Sample.page [Sample.meta "og:description"
                               "Great day! #fun @friend More text here.";
                             Sample.bare_meta "og:title"])
            (py "https://www.instagram.com/p/Cabc/"))
    /\ result !! "success"%string = Some (PBool true)
    /\ result !! "caption"%string
       = Some (PStr (py "Great day! #fun @friend More text here."))
    /\ result !! "title"%string = Some (PStr title).
Proof.
  apply (instagram_title_from_caption Sample.lib
           (py "https://www.instagram.com/p/Cabc/")
           (Sample.page [Sample.meta "og:description"
                           "Great day! #fun @friend More text here.";
                         Sample.bare_meta "og:title"])
           [Sample.meta "og:description"
              "Great day! #fun @friend More text here.";
            Sample.bare_meta "og:title"]
           (py "Great day! #fun @friend More text here.") []).
  - exists 200%Z, None. split; reflexivity.
  - reflexivity.
  - reflexivity.
  - intros script H. discriminate H.
Defined.







(** X16. The video id of the common address shapes: for
    [https://www.youtube.com/watch?v=<id>] followed by nothing or by
    [&...], and for [https://youtu.be/<id>] followed by nothing or by
    [?...] (as long as [youtube.com] does not occur in the address), the
    strategy parses exactly [<id>]. *)
Theorem youtube_id_of_common_urls (id rest : pystr) :
  id <> [] ->
  (Forall (fun c => c <> 38) id ->
   starts_with [38] rest = true \/ rest = [] ->
   youtube_video_id (py "https://www.youtube.com/watch?v=" ++ id ++ rest) = id)
  /\ (Forall (fun c => c <> 63) id ->
      starts_with [63] rest = true \/ rest = [] ->
      contains (py "youtube.com") (py "https://youtu.be/" ++ id ++ rest)
      = false ->
      youtube_video_id (py "https://youtu.be/" ++ id ++ rest) = id).
Proof.
  intros Hne. split.
  - intros Hid Hrest. unfold youtube_video_id.
    assert (Hc : contains (py "youtube.com")
                   (py "https://www.youtube.com/watch?v=" ++ id ++ rest)
                 = true).
    { apply contains_occurs. exists (py "https://www."),
        (py "/watch?v=" ++ id ++ rest). reflexivity. }
    rewrite Hc.
    cbn [py List.map list_ascii_of_string app N_of_ascii].
    repeat (rewrite search_group_skip by reflexivity).
    erewrite search_group_here;
      [reflexivity | reflexivity | apply span_not_app; assumption | exact Hne].
  - intros Hid Hrest Hc. unfold youtube_video_id. rewrite Hc.
    assert (Hb : contains (py "youtu.be") (py "https://youtu.be/" ++ id ++ rest)
                 = true).
    { apply contains_occurs. exists (py "https://"), (py "/" ++ id ++ rest).
      reflexivity. }
    rewrite Hb.
    cbn [py List.map list_ascii_of_string app N_of_ascii].
    repeat (rewrite search_group_skip by reflexivity).
    erewrite search_group_here;
      [reflexivity | reflexivity | apply span_not_app; assumption | exact Hne].
Qed.

Lemma youtube_id_of_common_urls_witness :
  youtube_video_id (py "https://www.youtube.com/watch?v=" ++ py "abc123"
                      ++ py "&t=42s") = py "abc123"
  /\ youtube_video_id (py "https://youtu.be/" ++ py "abc123" ++ py "?t=42")
     = py "abc123".
Proof.
  pose proof (youtube_id_of_common_urls (py "abc123") (py "&t=42s")) as H1.
  pose proof (youtube_id_of_common_urls (py "abc123") (py "?t=42")) as H2.
  split.
  - apply H1; [discriminate | repeat constructor; discriminate
              | left; reflexivity].
  - apply H2; [discriminate | repeat constructor; discriminate
              | left; reflexivity | reflexivity].
Defined.


(** * Properties of ai_processor.py *)

(** *** Stripping *)

Lemma drop_space_head (s : pystr) :
  match drop_space s with
  | [] => True
  | c :: _ => is_space c = false
  end.
Proof.
  induction s as [|c s IH]; simpl; [exact I|].
  destruct (is_space c) eqn:E; [exact IH | exact E].
Qed.

Lemma drop_space_suffix (s : pystr) :
  exists pre, s = pre ++ drop_space s.
Proof.
  induction s as [|c s (pre & IH)]; [exists []; reflexivity|].
  simpl. destruct (is_space c).
  - exists (c :: pre). simpl. f_equal. exact IH.
  - exists []. reflexivity.
Qed.

Lemma drop_space_fixed (s : pystr) :
  match s with
  | [] => True
  | c :: _ => is_space c = false
  end ->
  drop_space s = s.
Proof.
  destruct s as [|c s]; [reflexivity|]. simpl. intros ->. reflexivity.
Qed.

(** A stripped text starts and ends outside whitespace. *)
Lemma py_strip_idempotent (s : pystr) :
  py_strip (py_strip s) = py_strip s.
Proof.
  unfold py_strip.
  set (a := drop_space s).
  set (b := drop_space (rev a)).
  assert (Hb : drop_space b = b) by (apply drop_space_fixed, drop_space_head).
  assert (Ha : drop_space (rev b) = rev b).
  { apply drop_space_fixed.
    destruct (drop_space_suffix (rev a)) as (pre & Hpre). fold b in Hpre.
    assert (Ea : a = rev b ++ rev pre).
    { rewrite <- (rev_involutive a), Hpre, rev_app_distr. reflexivity. }
    pose proof (drop_space_head s) as Hh. fold a in Hh.
    destruct (rev b) as [|c t]; [exact I|].
    rewrite Ea in Hh. exact Hh. }
  rewrite Ha, rev_involutive, Hb. reflexivity.
Qed.

Lemma pystr_eqb_eq (a b : pystr) : pystr_eqb a b = true <-> a = b.
Proof.
  revert b. induction a as [|x a IH]; intros [|y b]; simpl;
    try (split; [discriminate | discriminate]); [split; reflexivity|].
  rewrite andb_true_iff, N.eqb_eq, IH.
  split; [intros [-> ->]; reflexivity | intros [= -> ->]; auto].
Qed.

(** *** The call *)

Lemma reply_content_stripped (data : pyval) (text : pystr) :
  reply_content data = Ret (Some text) -> py_strip text = text.
Proof.
  unfold reply_content, obind.
  destruct (py_in (py "choices") data) as [[|]|]; try discriminate.
  destruct (py_item data (py "choices")) as [choices|]; try discriminate.
  destruct (py_len choices) as [n|]; try discriminate.
  destruct (0 <? n)%nat; try discriminate.
  destruct (py_item0 choices) as [first|]; try discriminate.
  destruct (py_item first (py "message")) as [message|]; try discriminate.
  destruct (py_item message (py "content")) as [content|]; try discriminate.
  destruct content; try discriminate. simpl.
  intros [= <-]. apply py_strip_idempotent.
Qed.

Section ProcessorProperties.

Context (L : PyLib) (T : Prompts) (P : AIProcessor).

Lemma call_groq_stripped (prompt : pystr) (w : AiWorld) (text : pystr) :
  fst (_call_groq P prompt w) = Some text -> py_strip text = text.
Proof.
  unfold _call_groq.
  destruct (negb (truthy (PStr (groq_api_key P)))); [discriminate|].
  destruct (api w _ _ _) as [|code [data|]]; try discriminate;
    destruct (is_error_status code); try discriminate.
  destruct (reply_content data) as [t|] eqn:E; [|discriminate].
  simpl. intros ->. exact (reply_content_stripped data text E).
Qed.

Lemma call_groq_without_key (prompt : pystr) (w : AiWorld) :
  groq_api_key P = [] -> _call_groq P prompt w = (None, w).
Proof. intros H. unfold _call_groq. rewrite H. reflexivity. Qed.

Lemma call_groq_posts (prompt : pystr) (w : AiWorld) :
  groq_api_key P <> [] ->
  api (snd (_call_groq P prompt w)) = api w
  /\ posts (snd (_call_groq P prompt w))
     = posts w ++ [(groq_base_url P ++ py "/chat/completions", prompt)].
Proof.
  intros H. unfold _call_groq.
  destruct (groq_api_key P) as [|k key]; [congruence|]. simpl negb. cbv iota.
  destruct (api w _ _ _) as [|code [data|]]; try (split; reflexivity);
    destruct (is_error_status code); try (split; reflexivity).
  destruct (reply_content data); split; reflexivity.
Qed.

(** X17. [_call_groq] sends nothing without an API key and answers
    [None]; with a key it makes exactly one call, to
    [<base>/chat/completions] with the prompt; and a text it returns has
    no whitespace at either end. *)
Theorem call_groq_effects (prompt : pystr) (w : AiWorld) :
  (groq_api_key P = [] -> _call_groq P prompt w = (None, w))
  /\ (groq_api_key P <> [] ->
      api (snd (_call_groq P prompt w)) = api w
      /\ posts (snd (_call_groq P prompt w))
         = posts w ++ [(groq_base_url P ++ py "/chat/completions", prompt)])
  /\ (forall text,
        fst (_call_groq P prompt w) = Some text -> py_strip text = text).
Proof.
  split; [apply call_groq_without_key|].
  split; [apply call_groq_posts | apply call_groq_stripped].
Qed.

Lemma matching_category_Some (categories : list string) (result cat : pystr) :
  matching_category L categories result = Some cat ->
  In cat (List.map py categories)
  /\ str_lower L result = str_lower L cat.
Proof.
  induction categories as [|c rest IH]; simpl; [discriminate|].
  destruct (pystr_eqb _ _) eqn:E.
  - intros [= <-]. apply pystr_eqb_eq in E. auto.
  - intros H. destruct (IH H). auto.
Qed.

Lemma matching_category_None (categories : list string) (result : pystr) :
  matching_category L categories result = None ->
  forall cat, In cat categories ->
    str_lower L result <> str_lower L (py cat).
Proof.
  induction categories as [|c rest IH]; simpl; [intros _ cat []|].
  destruct (pystr_eqb _ _) eqn:E; [discriminate|].
  intros H cat [<- | Hin].
  - intros Heq. apply pystr_eqb_eq in Heq. congruence.
  - exact (IH H cat Hin).
Qed.

Lemma categories_not_empty :
  Forall (fun c => c <> []) (List.map py DEFAULT_CATEGORIES).
Proof. repeat constructor; discriminate. Qed.

(** X18. [categorize_content] always answers a category that is not
    empty: one of [DEFAULT_CATEGORIES], spelled as the list spells it,
    whenever the model's answer equals an entry up to letter case; the
    answer itself, stripped, when it matches no entry even ignoring case;
    and "Other", which is in the list, when there is no answer. *)
Theorem categorize_content_category (url title caption : pystr)
    (w : AiWorld) :
  let category := fst (categorize_content L T P url title caption w) in
  category <> []
  /\ (In category (List.map py DEFAULT_CATEGORIES)
      \/ forall cat, In cat DEFAULT_CATEGORIES ->
           str_lower L category <> str_lower L (py cat))
  /\ (groq_api_key P = [] ->
      categorize_content L T P url title caption w = (py "Other", w))
  /\ In (py "Other") (List.map py DEFAULT_CATEGORIES).
Proof.
  cbv zeta. unfold categorize_content.
  set (prompt := category_prompt T _ _ _ _).
  assert (Hother : In (py "Other") (List.map py DEFAULT_CATEGORIES)).
  { apply in_map. unfold DEFAULT_CATEGORIES.
    repeat (first [left; reflexivity | right]). }
  pose proof categories_not_empty as Hne. rewrite Forall_forall in Hne.
  clearbody prompt. revert Hother Hne.
  generalize DEFAULT_CATEGORIES. intros cats Hother Hne.
  split; [|split; [|split; [|exact Hother]]].
  - pose proof (call_groq_stripped prompt w) as Hs.
    destruct (_call_groq P prompt w) as [[[|c r]|] w']; cbn [fst] in *;
      try discriminate.
    rewrite (Hs (c :: r) eq_refl).
    destruct (matching_category L cats (c :: r)) as [cat|] eqn:E;
      cbn [fst]; [|discriminate].
    apply matching_category_Some in E as [Hin _]. exact (Hne cat Hin).
  - destruct (_call_groq P prompt w) as [[[|c r]|] w']; cbn [fst];
      try (left; exact Hother).
    destruct (matching_category L cats (py_strip (c :: r)))
      as [cat|] eqn:E; cbn [fst].
    + left. apply matching_category_Some in E as [Hin _]. exact Hin.
    + right. exact (matching_category_None _ _ E).
  - intros Hkey. rewrite (call_groq_without_key prompt w Hkey). reflexivity.
Qed.

(** *** Summaries *)

Lemma split_ws_join_app (ws : list pystr) (x : pystr) :
  Forall is_token ws -> ws <> [] ->
  Forall (fun c => is_space c = false) x ->
  length (split_ws (join_space ws ++ x)) = length ws.
Proof.
  intros Hws Hne Hx. induction Hws as [|w ws Hw Hws IH]; [congruence|].
  destruct ws as [|w2 ws].
  - simpl join_space. rewrite split_ws_token; [reflexivity|].
    destruct Hw as [Hw1 Hw2]. split.
    + destruct w; [congruence | discriminate].
    + apply Forall_app. auto.
  - rewrite join_space_cons by discriminate.
    rewrite <- app_assoc.
    change ((space :: join_space (w2 :: ws)) ++ x)
      with (space :: (join_space (w2 :: ws) ++ x)).
    rewrite split_ws_token_then by exact Hw.
    change (length (w :: split_ws (join_space (w2 :: ws) ++ x)))
      with (Datatypes.S (length (split_ws (join_space (w2 :: ws) ++ x)))).
    rewrite IH by discriminate. reflexivity.
Qed.


Lemma firstn_tokens (n : nat) (ws : list pystr) :
  Forall is_token ws -> Forall is_token (firstn n ws).
Proof.
  intros H. revert n. induction H as [|w ws Hw _ IH]; intros [|n]; simpl;
    constructor; auto.
Qed.

Lemma title_summary_bounds (title : pystr) :
  title_summary title <> []
  /\ (length (title_summary title) <= 64)%nat.
Proof.
  unfold title_summary. destruct title as [|c title].
  - split; [discriminate | simpl; lia].
  - split; [discriminate|].
    rewrite !length_app.
    pose proof (firstn_le_length 50 (c :: title)) as H1.
    rewrite length_firstn in H1.
    assert (H2 : (length (firstn 50 (c :: title)) <= 50)%nat).
    { rewrite length_firstn. lia. }
    destruct (50 <? length (c :: title))%nat; simpl length in *; lia.
Qed.

(** X19. A summary [summarize_content] takes from the model's answer has
    at most 25 words; otherwise the summary is the fallback made from the
    title, which is never empty and at most 64 characters long ("Check
    out: ", 50 characters of the title and "..."). Without an API key it
    is the fallback, and nothing is sent. *)
Theorem summarize_content_bounds (url title caption platform : pystr)
    (w : AiWorld) :
  let summary := fst (summarize_content T P url title caption platform w) in
  ((length (split_ws summary) <= 25)%nat \/ summary = title_summary title)
  /\ title_summary title <> []
  /\ (length (title_summary title) <= 64)%nat
  /\ (groq_api_key P = [] ->
      summarize_content T P url title caption platform w
      = (title_summary title, w)).
Proof.
  cbv zeta. unfold summarize_content.
  set (prompt := summary_prompt T _ _ _ _).
  destruct (title_summary_bounds title) as [Hne Hlen].
  split; [|split; [exact Hne|split; [exact Hlen|]]].
  - destruct (_call_groq P prompt w) as [[[|c r]|] w']; cbn [fst];
      try (right; reflexivity).
    left. cbv zeta.
    set (result := py_strip (replace_from _ _ _ _)).
    destruct (Nat.ltb_spec 25 (length (split_ws result))) as [Hlong|Hshort];
      cbn [fst]; [|exact Hshort].
    rewrite split_ws_join_app.
    + rewrite length_firstn. lia.
    + apply firstn_tokens, split_ws_tokens.
    + destruct (split_ws result); [simpl in Hlong; lia | discriminate].
    + repeat constructor.
  - intros Hkey. rewrite (call_groq_without_key prompt w Hkey). reflexivity.
Qed.

(** *** Tags *)

Lemma replace_from_Forall (P0 : N -> Prop) (old : pystr) (s : pystr) :
  Forall P0 s -> forall skip, Forall P0 (replace_from old [] skip s).
Proof.
  induction 1 as [|c s Hc Hs IH]; intros skip; simpl; [constructor|].
  destruct skip as [|k]; [|apply IH].
  destruct (starts_with old (c :: s)); simpl; [apply IH|].
  constructor; [exact Hc | apply IH].
Qed.

Lemma replace_char_gone (c : N) (s : pystr) :
  Forall (fun x => x <> c) (replace_from [c] [] 0 s).
Proof.
  induction s as [|x s IH]; simpl; [constructor|].
  unfold starts_with. simpl.
  destruct (N.eqb_spec c x) as [->|Hne]; simpl; [exact IH|].
  constructor; [congruence | exact IH].
Qed.

Lemma drop_space_Forall (P0 : N -> Prop) (s : pystr) :
  Forall P0 s -> Forall P0 (drop_space s).
Proof.
  induction 1 as [|c s Hc Hs IH]; simpl; [constructor|].
  destruct (is_space c); [exact IH | constructor; assumption].
Qed.

Lemma py_strip_Forall (P0 : N -> Prop) (s : pystr) :
  Forall P0 s -> Forall P0 (py_strip s).
Proof.
  intros H. unfold py_strip.
  apply Forall_rev, drop_space_Forall, Forall_rev, drop_space_Forall, H.
Qed.



(** X20. [extract_tags] answers either the model's tags, lower-cased and
    cleaned, which then are at least 3 characters long, hold no quote
    character of either kind and have no whitespace at either end, or the
    keywords of the title; without an API key always the latter, and
    nothing is sent. *)
Theorem extract_tags_cleaned (url title caption platform : pystr)
    (w : AiWorld) :
  let tags := fst (extract_tags L T P url title caption platform w) in
  (tags = title_tags L title platform
   \/ ((3 <= length tags)%nat
       /\ Forall (fun c => c <> dquote /\ c <> 39) tags
       /\ py_strip tags = tags))
  /\ (groq_api_key P = [] ->
      extract_tags L T P url title caption platform w
      = (title_tags L title platform, w)).
Proof.
  cbv zeta. unfold extract_tags.
  set (prompt := tags_prompt T _ _ _ _). split.
  - destruct (_call_groq P prompt w) as [[[|c r]|] w']; cbn [fst];
      try (left; reflexivity).
    cbv zeta.
    set (lowered := str_lower L (py_strip (c :: r))).
    destruct (Nat.leb_spec 3 (length (py_strip
                (replace_from (py "tags:") [] 0
                   (replace_from [39] [] 0
                      (replace_from [dquote] [] 0 lowered))))))
      as [Hlong|Hshort]; cbn [fst]; [|left; reflexivity].
    right. split; [exact Hlong|]. split; [|apply py_strip_idempotent].
    apply py_strip_Forall, replace_from_Forall.
    apply Forall_forall. intros x Hx. split.
    + pose proof (replace_from_Forall (fun x => x <> dquote) [39] _
                    (replace_char_gone dquote lowered) 0%nat) as H.
      rewrite Forall_forall in H. exact (H x Hx).
    + pose proof (replace_char_gone 39 (replace_from [dquote] [] 0 lowered))
        as H.
      rewrite Forall_forall in H. exact (H x Hx).
  - intros Hkey. rewrite (call_groq_without_key prompt w Hkey). reflexivity.
Qed.


(** X22. [process_content] without an API key sends nothing and answers
    the three fallbacks: category "Other", the summary made from the
    title, the keywords of the title. With a key it makes exactly three
    calls. *)
Theorem process_content_calls (url title caption platform : pystr)
    (w : AiWorld) :
  (groq_api_key P = [] ->
   process_content L T P url title caption platform w
   = (of_list [ item "category" (PStr (py "Other"));
                item "summary" (PStr (title_summary title));
                item "tags" (PStr (title_tags L title platform)) ], w))
  /\ (groq_api_key P <> [] ->
      length (posts (snd (process_content L T P url title caption platform w)))
      = (length (posts w) + 3)%nat).
Proof.
  split.
  - intros Hkey. unfold process_content, categorize_content,
      summarize_content, extract_tags.
    rewrite !(call_groq_without_key _ _ Hkey). reflexivity.
  - intros Hkey. unfold process_content.
    assert (H1 : forall w0, length (posts (snd (categorize_content L T P url
                        title caption w0))) = Datatypes.S (length (posts w0))).
    { intros w0. unfold categorize_content.
      match goal with
      | |- context [_call_groq P ?p w0] =>
          pose proof (call_groq_posts p w0 Hkey) as [_ Hp];
          destruct (_call_groq P p w0) as [[[|c r]|] w']
      end; cbn [snd] in *;
      try destruct (matching_category _ _ _); cbn [snd];
      rewrite Hp, length_app; simpl; lia. }
    assert (H2 : forall w0, length (posts (snd (summarize_content T P url
                        title caption platform w0)))
                 = Datatypes.S (length (posts w0))).
    { intros w0. unfold summarize_content.
      match goal with
      | |- context [_call_groq P ?p w0] =>
          pose proof (call_groq_posts p w0 Hkey) as [_ Hp];
          destruct (_call_groq P p w0) as [[[|c r]|] w']
      end; cbn [snd] in *; cbv zeta;
      try match goal with
          | |- context [if ?b then _ else _] => destruct b
          end; cbn [snd];
      rewrite Hp, length_app; simpl; lia. }
    assert (H3 : forall w0, length (posts (snd (extract_tags L T P url
                        title caption platform w0)))
                 = Datatypes.S (length (posts w0))).
    { intros w0. unfold extract_tags.
      match goal with
      | |- context [_call_groq P ?p w0] =>
          pose proof (call_groq_posts p w0 Hkey) as [_ Hp];
          destruct (_call_groq P p w0) as [[[|c r]|] w']
      end; cbn [snd] in *; cbv zeta;
      try match goal with
          | |- context [if ?b then _ else _] => destruct b
          end; cbn [snd];
      rewrite Hp, length_app; simpl; lia. }
    specialize (H1 w).
    destruct (categorize_content L T P url title caption w) as [category w1].
    specialize (H2 w1).
    destruct (summarize_content T P url title caption platform w1)
      as [summary w2].
    specialize (H3 w2).
    destruct (extract_tags L T P url title caption platform w2) as [tags w3].
    cbn [snd] in *. lia.
Qed.

End ProcessorProperties.

Lemma categorize_content_category_witness :
  categorize_content Sample.lib SampleAi.templates SampleAi.without_key
    (py "https://example.com/a") (py "A title") [] SampleAi.down
  = (py "Other", SampleAi.down).
Proof.
  apply (categorize_content_category Sample.lib SampleAi.templates
           SampleAi.without_key (py "https://example.com/a") (py "A title")
           [] SampleAi.down).
  reflexivity.
Defined.


Lemma call_groq_effects_witness :
  _call_groq SampleAi.without_key (py "Sort this") (SampleAi.says (py " Other "))
  = (None, SampleAi.says (py " Other "))
  /\ posts (snd (_call_groq SampleAi.with_key (py "Sort this")
                   (SampleAi.says (py " Other "))))
     = [(py "https://api.groq.com/openai/v1/chat/completions", py "Sort this")]
  /\ py_strip (py "Other") = py "Other".
Proof.
  pose proof (call_groq_effects SampleAi.without_key (py "Sort this")
                (SampleAi.says (py " Other "))) as (H1 & _).
  pose proof (call_groq_effects SampleAi.with_key (py "Sort this")
                (SampleAi.says (py " Other "))) as (_ & H2 & H3).
  split; [apply H1; reflexivity|].
  split; [apply H2; discriminate | apply H3; reflexivity].
Defined.

Lemma summarize_content_bounds_witness :
  summarize_content SampleAi.templates SampleAi.without_key
    (py "https://example.com/a") (py "A title") [] (py "blog") SampleAi.down
  = (py "Check out: A title", SampleAi.down).
Proof.
  apply (summarize_content_bounds SampleAi.templates
           SampleAi.without_key (py "https://example.com/a") (py "A title")
           [] (py "blog") SampleAi.down).
  reflexivity.
Defined.

Lemma extract_tags_cleaned_witness :
  extract_tags Sample.lib SampleAi.templates SampleAi.without_key
    (py "https://example.com/a") (py "Budget travel, simply!") [] (py "blog")
    SampleAi.down
  = (py "budget, travel, simply", SampleAi.down).
Proof.
  apply (extract_tags_cleaned Sample.lib SampleAi.templates
           SampleAi.without_key (py "https://example.com/a")
           (py "Budget travel, simply!") [] (py "blog") SampleAi.down).
  reflexivity.
Defined.


Lemma process_content_calls_witness :
  length (posts (snd (process_content Sample.lib SampleAi.templates
                        SampleAi.with_key (py "https://example.com/a")
                        (py "A title") [] (py "blog")
                        (SampleAi.says (py "web development")))))
  = 3%nat.
Proof.
  apply (process_content_calls Sample.lib SampleAi.templates
           SampleAi.with_key (py "https://example.com/a") (py "A title") []
           (py "blog") (SampleAi.says (py "web development"))).
  discriminate.
Defined.
